(** * A shallow embedding of [server.py], the analytics backend

    The development follows the source file top to bottom: the Python
    values the program manipulates (exceptions, floats, strings, dates),
    the report fetcher [get_ga4_data], the two formatters, the five
    aggregations of the [/analytics] handler, the handler's exception
    clauses and the endpoint with its authentication gate and its
    parameter validation.  The theorems come after the definitions.

    Strings are ASCII strings: the analytics backend sends numbers, dates
    and identifiers, and every runtime function modelled below is modelled
    on ASCII input. *)

From Stdlib Require Import ZArith Lia String Ascii DecimalString Sorted Permutation.
From Stdlib Require OrderedTypeEx.
From stdpp Require Import base gmap strings list.

Local Open Scope Z_scope.

(** ** Exceptions and the two effects of the program *)

(** The exception classes the program can meet.  [OtherException] stands
    for every class that does not derive from [ValueError] (the errors of
    the analytics client, for instance); an exception of a subclass of
    [ValueError] is a [ValueError] here, since the handler's clauses tell
    nothing else apart. *)
Inductive exn_class :=
| ValueError
| OverflowError
| ZeroDivisionError
| IndexError
| TypeError
| OtherException (name : string).

Record exn := Exn { exn_cls : exn_class; exn_msg : string }.

Definition is_ValueError (e : exn) : bool :=
  match exn_cls e with ValueError => true | _ => false end.

(** A computation that returns or raises. *)
Inductive outcome (A : Type) :=
| Ok (a : A)
| Raise (e : exn).
Arguments Ok {A} a.
Arguments Raise {A} e.

#[global] Instance outcome_bind : MBind outcome := fun A B k m =>
  match m with Ok a => k a | Raise e => Raise e end.

Fixpoint omapM {A B} (f : A -> outcome B) (l : list A) : outcome (list B) :=
  match l with
  | [] => Ok []
  | a :: l' => b ← f a; bs ← omapM f l'; Ok (b :: bs)
  end.

(** ** Characters and strings *)

Definition code (c : ascii) : Z := Z.of_nat (nat_of_ascii c).

Definition is_digit (c : ascii) : bool := (48 <=? code c) && (code c <=? 57).
Definition digit_val (c : ascii) : Z := code c - 48.
Definition digit_char (d : Z) : ascii := ascii_of_nat (Z.to_nat (48 + d)).

(** C's [isspace] in the C locale, which [float] uses on ASCII text. *)
Definition is_space (c : ascii) : bool :=
  (code c =? 32) || ((9 <=? code c) && (code c <=? 13)).

Definition to_lower (c : ascii) : ascii :=
  if (65 <=? code c) && (code c <=? 90) then ascii_of_nat (Z.to_nat (code c + 32)) else c.

(** [str.lower] on an ASCII string. *)
Fixpoint lower (s : string) : string :=
  match s with
  | EmptyString => EmptyString
  | String c s' => String (to_lower c) (lower s')
  end.

Fixpoint lstrip (s : string) : string :=
  match s with
  | String c s' => if is_space c then lstrip s' else s
  | EmptyString => EmptyString
  end.

Fixpoint rstrip (s : string) : string :=
  match s with
  | EmptyString => EmptyString
  | String c s' =>
      match rstrip s' with
      | EmptyString => if is_space c then EmptyString else String c EmptyString
      | t => String c t
      end
  end.

Definition strip (s : string) : string := rstrip (lstrip s).

(** [str(n)] for an integer. *)
Definition str_of_Z (n : Z) : string := NilZero.string_of_int (Z.to_int n).

(** The format [{n:02d}] and C's [%02d]: the decimal text of [n], with one
    leading zero when it is a single character. *)
Definition format_02d (n : Z) : string :=
  let s := str_of_Z n in
  if (String.length s <? 2)%nat then String "0"%char s else s.

Definition hex_digit (d : Z) : ascii :=
  if d <? 10 then digit_char d else ascii_of_nat (Z.to_nat (87 + d)).

Definition squote : ascii := "'"%char.
Definition dquote : ascii := ascii_of_nat 34.
Definition backslash : ascii := ascii_of_nat 92.

Fixpoint contains (c : ascii) (s : string) : bool :=
  match s with
  | EmptyString => false
  | String d s' => Ascii.eqb c d || contains c s'
  end.

Fixpoint repr_body (q : ascii) (s : string) : string :=
  match s with
  | EmptyString => EmptyString
  | String c s' =>
      let rest := repr_body q s' in
      if Ascii.eqb c q || Ascii.eqb c backslash then String backslash (String c rest)
      else if code c =? 9 then String backslash (String "t"%char rest)
      else if code c =? 10 then String backslash (String "n"%char rest)
      else if code c =? 13 then String backslash (String "r"%char rest)
      else if (code c <? 32) || (code c =? 127) then
        String backslash (String "x"%char
          (String (hex_digit (code c / 16)) (String (hex_digit (code c mod 16)) rest)))
      else String c rest
  end.

(** [repr(s)] of an ASCII string, as it appears in the messages of the
    built-in conversions. *)
Definition repr (s : string) : string :=
  let q := if contains squote s && negb (contains dquote s) then dquote else squote in
  String q (repr_body q s +:+ String q EmptyString).

(** ** Python floats

    A [float] is an IEEE 754 binary64 number.  A finite one is kept as its
    sign, its integral significand [m] and its exponent [e], the value being
    [m * 2^e], in the one form the rounding function below produces
    ([2^52 <= m < 2^53] for a normal number, [e = -1074] for a subnormal
    one, [m = 0] and [e = 0] for a zero), so that equal numbers are equal
    terms. *)
Inductive float :=
| FNaN
| FInf (neg : bool)
| FFin (neg : bool) (m : Z) (e : Z).

(** The integer nearest to [n / d], ties to the even one ([0 <= n], [0 < d]). *)
Definition round_half_even (n d : Z) : Z :=
  let q := n / d in
  match 2 * (n mod d) ?= d with
  | Lt => q
  | Gt => q + 1
  | Eq => if Z.even q then q else q + 1
  end.

(** Round-to-nearest-even of the rational [n / d] ([0 <= n], [0 < d]) to
    binary64, with the sign [neg]; too large a value gives an infinity. *)
Definition binary64_of_ratio (neg : bool) (n d : Z) : float :=
  if n =? 0 then FFin neg 0 0
  else
    let e0 := Z.log2 n - Z.log2 d in
    let e1 := if n * 2 ^ Z.max 0 (- e0) <? d * 2 ^ Z.max 0 e0 then e0 - 1 else e0 in
    let e := Z.max (e1 - 52) (-1074) in
    let m := if 0 <=? e then round_half_even n (d * 2 ^ e)
             else round_half_even (n * 2 ^ (- e)) d in
    let '(m, e) := if m =? 2 ^ 53 then (2 ^ 52, e + 1) else (m, e) in
    if m =? 0 then FFin neg 0 0
    else if 971 <? e then FInf neg
    else FFin neg m e.

(** The value of a finite float as a fraction with a positive denominator. *)
Definition ratio_of (m e : Z) : Z * Z :=
  if 0 <=? e then (m * 2 ^ e, 1) else (m, 2 ^ (- e)).

(** The floats of the integer constants of the program. *)
Definition f_zero : float := FFin false 0 0.
Definition f_one : float := binary64_of_ratio false 1 1.
Definition f_hundred : float := binary64_of_ratio false 100 1.

Definition is_finite (x : float) : bool :=
  match x with FFin _ _ _ => true | _ => false end.

Definition is_zero (x : float) : bool :=
  match x with FFin _ m _ => m =? 0 | _ => false end.

(** [x < y] on floats: false as soon as one of them is a NaN. *)
Definition flt (x y : float) : bool :=
  match x, y with
  | FNaN, _ | _, FNaN => false
  | FInf nx, FInf ny => nx && negb ny
  | FInf nx, FFin _ _ _ => nx
  | FFin _ _ _, FInf ny => negb ny
  | FFin nx mx ex, FFin ny my ey =>
      let '(a, b) := ratio_of mx ex in
      let '(c, d) := ratio_of my ey in
      (if nx then - a else a) * d <? (if ny then - c else c) * b
  end.

(** [max(x, 1)]: Python's [max] keeps its first argument unless a later one
    is greater, so the result is the integer 1 when [1 > x] and [x] itself
    otherwise, a NaN included; the integer 1 then enters the division as
    the float 1.0. *)
Definition fmax1 (x : float) : float := if flt x f_one then f_one else x.

(** IEEE 754 multiplication, which is Python's [*] on floats. *)
Definition fmul (x y : float) : float :=
  match x, y with
  | FNaN, _ | _, FNaN => FNaN
  | FInf nx, FInf ny => FInf (xorb nx ny)
  | FInf nx, FFin ny my _ => if my =? 0 then FNaN else FInf (xorb nx ny)
  | FFin nx mx _, FInf ny => if mx =? 0 then FNaN else FInf (xorb nx ny)
  | FFin nx mx ex, FFin ny my ey =>
      let '(a, b) := ratio_of mx ex in
      let '(c, d) := ratio_of my ey in
      binary64_of_ratio (xorb nx ny) (a * c) (b * d)
  end.

(** IEEE 754 division by a divisor that is not zero. *)
Definition fdiv_ieee (x y : float) : float :=
  match x, y with
  | FNaN, _ | _, FNaN => FNaN
  | FInf nx, FInf ny => FNaN
  | FInf nx, FFin ny _ _ => FInf (xorb nx ny)
  | FFin nx _ _, FInf ny => FFin (xorb nx ny) 0 0
  | FFin nx mx ex, FFin ny my ey =>
      let '(a, b) := ratio_of mx ex in
      let '(c, d) := ratio_of my ey in
      binary64_of_ratio (xorb nx ny) (a * d) (b * c)
  end.

(** Python's [x / y] on floats: a zero divisor raises. *)
Definition fdiv (x y : float) : outcome float :=
  if is_zero y then Raise (Exn ZeroDivisionError "float division by zero")
  else Ok (fdiv_ieee x y).

(** Python's [a / b] on integers: the correctly rounded quotient. *)
Definition int_truediv (a b : Z) : outcome float :=
  if b =? 0 then Raise (Exn ZeroDivisionError "division by zero")
  else
    match binary64_of_ratio (xorb (a <? 0) (b <? 0)) (Z.abs a) (Z.abs b) with
    | FInf _ => Raise (Exn OverflowError "integer division result too large for a float")
    | f => Ok f
    end.

(** [int(x)]: truncation toward zero; a NaN and the infinities raise. *)
Definition int_of_float (x : float) : outcome Z :=
  match x with
  | FNaN => Raise (Exn ValueError "cannot convert float NaN to integer")
  | FInf _ => Raise (Exn OverflowError "cannot convert float infinity to integer")
  | FFin neg m e =>
      let '(a, b) := ratio_of m e in
      Ok (if neg then - (a / b) else a / b)
  end.

(** [round(x, 1)]: the exact value of [x] is rounded to one decimal place,
    ties to the even digit, and the decimal result is converted back to the
    nearest float; zeros, infinities and NaNs are returned as they are. *)
Definition round1 (x : float) : float :=
  match x with
  | FFin neg m e =>
      if m =? 0 then x
      else
        let '(a, b) := ratio_of m e in
        binary64_of_ratio neg (round_half_even (10 * a) b) 10
  | _ => x
  end.

(** ** [float(s)] on a string

    The runtime strips the white space at both ends, checks and removes
    the underscores (each must stand between two digits), and then reads
    an optional sign followed by a decimal number with an optional
    exponent, or by [inf], [infinity] or [nan] in any case.  The decimal
    value is rounded to the nearest float. *)
Fixpoint strip_underscores (prev : ascii) (s : string) : option string :=
  match s with
  | EmptyString => if Ascii.eqb prev "_" then None else Some EmptyString
  | String c s' =>
      if Ascii.eqb c "_" then
        if is_digit prev then strip_underscores c s' else None
      else if Ascii.eqb prev "_" && negb (is_digit c) then None
      else String c <$> strip_underscores c s'
  end.

(** The longest prefix of digits: its value on top of [acc], the number of
    digits read on top of [n], and the rest of the string. *)
Fixpoint read_digits (acc n : Z) (s : string) : Z * Z * string :=
  match s with
  | String c s' =>
      if is_digit c then read_digits (10 * acc + digit_val c) (n + 1) s' else (acc, n, s)
  | EmptyString => (acc, n, s)
  end.

Definition read_sign (s : string) : bool * string :=
  match s with
  | String "-" s' => (true, s')
  | String "+" s' => (false, s')
  | _ => (false, s)
  end.

(** An unsigned decimal number that fills the whole string, as the pair of
    an integer [m] and a power of ten [k]: the number is [m * 10^k]. *)
Definition parse_decimal (s : string) : option (Z * Z) :=
  let '(i, ni, r1) := read_digits 0 0 s in
  let '(m, nf, r2) :=
    match r1 with
    | String "." r => read_digits i 0 r
    | _ => (i, 0, r1)
    end in
  if ni + nf =? 0 then None
  else
    match r2 with
    | EmptyString => Some (m, - nf)
    | String c r3 =>
        if Ascii.eqb c "e" || Ascii.eqb c "E" then
          let '(xneg, r4) := read_sign r3 in
          let '(x, nx, r5) := read_digits 0 0 r4 in
          if nx =? 0 then None
          else
            match r5 with
            | EmptyString => Some (m, (if xneg then - x else x) - nf)
            | _ => None
            end
        else None
    end.

Definition float_of_decimal (neg : bool) (m k : Z) : float :=
  if 0 <=? k then binary64_of_ratio neg (m * 10 ^ k) 1
  else binary64_of_ratio neg m (10 ^ (- k)).

Definition parse_inf_or_nan (neg : bool) (s : string) : option float :=
  let t := lower s in
  if String.eqb t "inf" || String.eqb t "infinity" then Some (FInf neg)
  else if String.eqb t "nan" then Some FNaN
  else None.

Definition float_syntax (s : string) : option float :=
  u ← strip_underscores zero (strip s);
  let '(neg, body) := read_sign u in
  match parse_decimal body with
  | Some (m, k) => Some (float_of_decimal neg m k)
  | None => parse_inf_or_nan neg body
  end.

Definition float_of_string (s : string) : outcome float :=
  match float_syntax s with
  | Some f => Ok f
  | None => Raise (Exn ValueError ("could not convert string to float: " +:+ repr s))
  end.

(** A value found in a record ([Some s], always a string) or the integer
    default [0] of [d.get(key, 0)], passed to [float]. *)
Definition float_of_field (v : option string) : outcome float :=
  match v with
  | Some s => float_of_string s
  | None => Ok f_zero
  end.

(** [int(float(d.get(key, 0)))]. *)
Definition int_of_field (v : option string) : outcome Z :=
  f ← float_of_field v; int_of_float f.

(** ** The formatters *)

(** [format_duration]: the bare [except] turns every exception of the
    conversions into the text [0:00]. *)
Definition format_duration (seconds : string) : string :=
  match
    (mins ← (n ← (f ← float_of_string seconds; int_of_float f); Ok (n / 60));
     secs ← (n ← (f ← float_of_string seconds; int_of_float f); Ok (n mod 60));
     Ok (str_of_Z mins +:+ ":" +:+ format_02d secs))
  with
  | Ok s => s
  | Raise _ => "0:00"
  end.

(** ** Calendar dates

    [datetime.date] holds a year, a month and a day of the proleptic
    Gregorian calendar, with [1 <= year <= 9999]; date arithmetic goes
    through the ordinal of the day, day 1 being 0001-01-01. *)
Record date := Date { year : Z; month : Z; day : Z }.

Definition MINYEAR : Z := 1.
Definition MAXYEAR : Z := 9999.
Definition MAXORDINAL : Z := 3652059.

Definition is_leap (y : Z) : bool :=
  (y mod 4 =? 0) && (negb (y mod 100 =? 0) || (y mod 400 =? 0)).

Definition DAYS_IN_MONTH : list Z := [0; 31; 28; 31; 30; 31; 30; 31; 31; 30; 31; 30; 31].
Definition DAYS_BEFORE_MONTH : list Z := [0; 0; 31; 59; 90; 120; 151; 181; 212; 243; 273; 304; 334].

Definition table (t : list Z) (i : Z) : Z := nth (Z.to_nat i) t 0.

Definition days_before_year (y : Z) : Z :=
  let y' := y - 1 in y' * 365 + y' / 4 - y' / 100 + y' / 400.

Definition days_in_month (y m : Z) : Z :=
  if (m =? 2) && is_leap y then 29 else table DAYS_IN_MONTH m.

Definition days_before_month (y m : Z) : Z :=
  table DAYS_BEFORE_MONTH m + (if (2 <? m) && is_leap y then 1 else 0).

Definition ymd2ord (y m d : Z) : Z :=
  days_before_year y + days_before_month y m + d.

Definition ord2ymd (ordinal : Z) : date :=
  let n := ordinal - 1 in
  let n400 := n / 146097 in
  let n := n mod 146097 in
  let n100 := n / 36524 in
  let n := n mod 36524 in
  let n4 := n / 1461 in
  let n := n mod 1461 in
  let n1 := n / 365 in
  let n := n mod 365 in
  let y := n400 * 400 + 1 + n100 * 100 + n4 * 4 + n1 in
  if (n1 =? 4) || (n100 =? 4) then Date (y - 1) 12 31
  else
    let leapyear := (n1 =? 3) && (negb (n4 =? 24) || (n100 =? 3)) in
    let m := (n + 50) / 32 in
    let preceding := table DAYS_BEFORE_MONTH m + (if (2 <? m) && leapyear then 1 else 0) in
    if n <? preceding then
      let m := m - 1 in
      let preceding :=
        preceding - (table DAYS_IN_MONTH m + (if (m =? 2) && leapyear then 1 else 0)) in
      Date y m (n - preceding + 1)
    else Date y m (n - preceding + 1).

Definition valid_date (d : date) : bool :=
  (MINYEAR <=? year d) && (year d <=? MAXYEAR) &&
  (1 <=? month d) && (month d <=? 12) &&
  (1 <=? day d) && (day d <=? days_in_month (year d) (month d)).

Definition toordinal (d : date) : Z := ymd2ord (year d) (month d) (day d).

(** [timedelta(days=n)]. *)
Definition timedelta (n : Z) : outcome Z :=
  if Z.abs n <=? 999999999 then Ok n
  else Raise (Exn OverflowError
                ("days=" +:+ str_of_Z n +:+ "; must have magnitude <= 999999999")).

(** [d - delta] for a date and a number of days. *)
Definition date_sub (d : date) (delta : Z) : outcome date :=
  let o := toordinal d - delta in
  if (1 <=? o) && (o <=? MAXORDINAL) then Ok (ord2ymd o)
  else Raise (Exn OverflowError "date value out of range").

Definition MONTH_ABBR : list string :=
  [""; "Jan"; "Feb"; "Mar"; "Apr"; "May"; "Jun"; "Jul"; "Aug"; "Sep"; "Oct"; "Nov"; "Dec"].

Definition month_abbr (m : Z) : string := nth (Z.to_nat m) MONTH_ABBR "".

(** [d.strftime("%Y-%m-%d")].  The C library writes [%Y] as the plain
    decimal year, so the year has four digits from the year 1000 on. *)
Definition strftime_Y_m_d (d : date) : string :=
  str_of_Z (year d) +:+ "-" +:+ format_02d (month d) +:+ "-" +:+ format_02d (day d).

(** [d.strftime("%b %d")] in the C locale. *)
Definition strftime_b_d (d : date) : string :=
  month_abbr (month d) +:+ " " +:+ format_02d (day d).

(** ** [datetime.strptime(s, "%Y%m%d")]

    The runtime turns the format into the regular expression
    [(\d\d\d\d)(1[0-2]|0[1-9]|[1-9])(3[0-1]|[1-2]\d|0[1-9]|[1-9]| [1-9])],
    matches it at the start of the text with the alternatives tried in
    order, refuses text left over after the match, and builds the date,
    which checks the year and the day. *)
Definition alternative := string -> option (string * string).

Definition one_char (p : ascii -> bool) : alternative := fun s =>
  match s with
  | String a r => if p a then Some (String a EmptyString, r) else None
  | _ => None
  end.

Definition two_chars (p q : ascii -> bool) : alternative := fun s =>
  match s with
  | String a (String b r) =>
      if p a && q b then Some (String a (String b EmptyString), r) else None
  | _ => None
  end.

Definition between (lo hi : ascii) (c : ascii) : bool :=
  (code lo <=? code c) && (code c <=? code hi).

Definition month_alternatives : list alternative :=
  [ two_chars (Ascii.eqb "1") (between "0" "2");
    two_chars (Ascii.eqb "0") (between "1" "9");
    one_char (between "1" "9") ].

Definition day_alternatives : list alternative :=
  [ two_chars (Ascii.eqb "3") (between "0" "1");
    two_chars (between "1" "2") is_digit;
    two_chars (Ascii.eqb "0") (between "1" "9");
    one_char (between "1" "9");
    two_chars (Ascii.eqb " ") (between "1" "9") ].

(** The first alternative that matches and after which the rest of the
    expression, [k], matches too. *)
Fixpoint first_match {R} (alts : list alternative) (k : string -> string -> option R)
    (s : string) : option R :=
  match alts with
  | [] => None
  | a :: alts' =>
      match a s with
      | Some (g, r) =>
          match k g r with
          | Some res => Some res
          | None => first_match alts' k s
          end
      | None => first_match alts' k s
      end
  end.

Definition four_digits (s : string) : option (string * string) :=
  match s with
  | String a (String b (String c (String d r))) =>
      if is_digit a && is_digit b && is_digit c && is_digit d
      then Some (String a (String b (String c (String d EmptyString))), r)
      else None
  | _ => None
  end.

(** The groups [m] and [d] and the text after them. *)
Definition match_md (s : string) : option (string * string * string) :=
  first_match month_alternatives
    (fun m r1 => first_match day_alternatives (fun d r2 => Some (m, d, r2)) r1) s.

(** The groups [Y], [m] and [d] of the match and the text after it. *)
Definition match_Ymd (s : string) : option (string * string * string * string) :=
  '(y, r) ← four_digits s;
  '(m, d, r2) ← match_md r;
  Some (y, m, d, r2).

(** [int(g)] for a matched group: digits after an optional space. *)
Definition int_of_group (g : string) : Z := (read_digits 0 0 (lstrip g)).1.1.

Definition strptime_Ymd (s : string) : outcome date :=
  match match_Ymd s with
  | None =>
      Raise (Exn ValueError
               ("time data " +:+ repr s +:+ " does not match format '%Y%m%d'"))
  | Some (gy, gm, gd, rest) =>
      if negb (String.eqb rest "") then
        Raise (Exn ValueError ("unconverted data remains: " +:+ rest))
      else
        let d := Date (int_of_group gy) (int_of_group gm) (int_of_group gd) in
        if negb ((MINYEAR <=? year d) && (year d <=? MAXYEAR)) then
          Raise (Exn ValueError ("year " +:+ str_of_Z (year d) +:+ " is out of range"))
        else if negb ((1 <=? day d) && (day d <=? days_in_month (year d) (month d))) then
          Raise (Exn ValueError "day is out of range for month")
        else Ok d
  end.

(** [format_date_label]: the bare [except] returns the input on any error. *)
Definition format_date_label (date_str : string) : string :=
  match (date_obj ← strptime_Ymd date_str; Ok (strftime_b_d date_obj)) with
  | Ok s => s
  | Raise _ => date_str
  end.

(** ** The analytics backend and the report fetcher *)

(** A [RunReportRequest]. *)
Record report_request := ReportRequest {
  rq_property : string;
  rq_start_date : string;
  rq_end_date : string;
  rq_metrics : list string;
  rq_dimensions : list string
}.

(** A row of the backend's answer and the answer itself: the rows and the
    two lists of column headers, each header standing for its name. *)
Record report_row := ReportRow {
  dimension_values : list string;
  metric_values : list string
}.

Record report_response := ReportResponse {
  dimension_headers : list string;
  metric_headers : list string;
  rows : list report_row
}.

(** An analytics client: [run_report] answers or raises. *)
Definition client := report_request -> outcome report_response.

(** Computations that call the backend carry the log of the requests sent
    so far. *)
Definition io (A : Type) : Type := list report_request -> outcome A * list report_request.

#[global] Instance io_bind : MBind io := fun A B k m log =>
  match m log with
  | (Ok a, log') => k a log'
  | (Raise e, log') => (Raise e, log')
  end.

Definition lift {A} (m : outcome A) : io A := fun log => (m, log).

Definition run_report (c : client) (request : report_request) : io report_response :=
  fun log => (c request, log ++ [request]).

(** The process-wide configuration, read from the environment at start-up;
    a variable that is not set is [None]. *)
Record config := Config {
  ADMIN_USERNAME : option string;
  ADMIN_PASSWORD : option string;
  GA4_PROPERTY_ID : option string
}.

(** The text of [f"{x}"] for a value that is a string or [None]. *)
Definition str_of_option (x : option string) : string := default "None" x.

(** A record of [get_ga4_data]: a dictionary from column name to value. *)
Abbreviation item := (gmap string string).

(** [for i, v in enumerate(values): item[headers[i].name] = v.value] *)
Fixpoint store_values (headers : list string) (i : nat) (values : list string)
    (it : item) : outcome item :=
  match values with
  | [] => Ok it
  | v :: values' =>
      match headers !! i with
      | Some h => store_values headers (S i) values' (<[h := v]> it)
      | None => Raise (Exn IndexError "list index out of range")
      end
  end.

(** The truth value of the [dimensions] argument. *)
Definition truthy (dimensions : option (list string)) : bool :=
  match dimensions with
  | Some (_ :: _) => true
  | _ => false
  end.

Definition row_item (response : report_response) (dimensions : option (list string))
    (row : report_row) : outcome item :=
  it ← (if truthy dimensions
         then store_values (dimension_headers response) 0 (dimension_values row) ∅
         else Ok ∅);
  store_values (metric_headers response) 0 (metric_values row) it.

Definition get_ga4_data (cfg : config) (c : client) (start_date end_date : string)
    (metrics : list string) (dimensions : option (list string)) : io (list item) :=
  let request :=
    ReportRequest ("properties/" +:+ str_of_option (GA4_PROPERTY_ID cfg))
      start_date end_date metrics
      (if truthy dimensions then default [] dimensions else []) in
  response ← run_report c request;
  lift (omapM (row_item response dimensions) (rows response)).

(** ** The aggregations of the handler *)

(** A value of the overview dictionary. *)
Inductive jvalue :=
| JInt (n : Z)
| JFloat (f : float)
| JStr (s : string).

(** [round(float(d.get(key, 0)) * 100, 1)] *)
Definition percent_of_field (v : option string) : outcome float :=
  f ← float_of_field v; Ok (round1 (fmul f f_hundred)).

(** The overview dictionary built from the first row, its entries
    evaluated in the order of the source. *)
Definition overview_of_row (days : Z) (start_date end_date : string) (data : item)
    : outcome (gmap string jvalue) :=
  total_sessions ← float_of_field (data !! "sessions");
  totalUsers ← int_of_field (data !! "totalUsers");
  newUsers ← int_of_field (data !! "newUsers");
  sessions ← int_of_float total_sessions;
  engagedSessions ← int_of_field (data !! "engagedSessions");
  pageViews ← int_of_field (data !! "screenPageViews");
  let avgSessionDuration :=
    format_duration (default "0" (data !! "averageSessionDuration")) in
  bounceRate ← percent_of_field (data !! "bounceRate");
  engagementRate ← percent_of_field (data !! "engagementRate");
  conversions ← int_of_field (data !! "conversions");
  conversionRate ←
    (c ← float_of_field (data !! "conversions");
     q ← fdiv c (fmax1 total_sessions);
     Ok (round1 (fmul q f_hundred)));
  Ok (<["conversionRate" := JFloat conversionRate]>
     (<["conversions" := JInt conversions]>
     (<["engagementRate" := JFloat engagementRate]>
     (<["bounceRate" := JFloat bounceRate]>
     (<["avgSessionDuration" := JStr avgSessionDuration]>
     (<["pageViews" := JInt pageViews]>
     (<["engagedSessions" := JInt engagedSessions]>
     (<["sessions" := JInt sessions]>
     (<["newUsers" := JInt newUsers]>
     (<["totalUsers" := JInt totalUsers]>
     (<["endDate" := JStr end_date]>
     (<["startDate" := JStr start_date]>
     (<["periodDays" := JInt days]> ∅))))))))))))).

Definition build_overview (days : Z) (start_date end_date : string)
    (overview_raw : list item) : outcome (gmap string jvalue) :=
  match overview_raw with
  | data :: _ => overview_of_row days start_date end_date data
  | [] => Ok ∅
  end.

(** [sorted(l, key=...)] is a stable sort; the stable insertion sort
    computes the same list.  Strings compare by character code. *)
Fixpoint insert_by {A} (key : A -> string) (x : A) (l : list A) : list A :=
  match l with
  | [] => [x]
  | y :: l' => if String.leb (key x) (key y) then x :: l else y :: insert_by key x l'
  end.

Fixpoint sorted {A} (key : A -> string) (l : list A) : list A :=
  match l with
  | [] => []
  | x :: l' => insert_by key x (sorted key l')
  end.

Record traffic_series := TrafficSeries {
  ts_labels : list string;
  ts_activeUsers : list Z;
  ts_sessions : list Z;
  ts_pageViews : list Z;
  ts_engagedSessions : list Z
}.

Definition date_key (x : item) : string := default "" (x !! "date").

(** One turn of the loop over the sorted rows: five appends. *)
Definition traffic_step (t : traffic_series) (row : item) : outcome traffic_series :=
  let labels := ts_labels t ++ [format_date_label (default "" (row !! "date"))] in
  a ← int_of_field (row !! "activeUsers");
  s ← int_of_field (row !! "sessions");
  p ← int_of_field (row !! "screenPageViews");
  e ← int_of_field (row !! "engagedSessions");
  Ok (TrafficSeries labels (ts_activeUsers t ++ [a]) (ts_sessions t ++ [s])
        (ts_pageViews t ++ [p]) (ts_engagedSessions t ++ [e])).

(** A [for] loop whose body may raise. *)
Fixpoint ofold {S A} (step : S -> A -> outcome S) (st : S) (l : list A) : outcome S :=
  match l with
  | [] => Ok st
  | a :: l' => st' ← step st a; ofold step st' l'
  end.

Definition traffic_over_time (traffic_raw : list item) : outcome traffic_series :=
  ofold traffic_step (TrafficSeries [] [] [] [] []) (sorted date_key traffic_raw).

Record top_page := TopPage {
  tp_page : string;
  tp_views : Z;
  tp_avgTime : string;
  tp_bounceRate : float;
  tp_engagedSessions : Z
}.

Definition top_page_of (it : item) : outcome top_page :=
  let page := default "(not set)" (it !! "pagePath") in
  views ← int_of_field (it !! "screenPageViews");
  let avgTime := format_duration (default "0" (it !! "averageSessionDuration")) in
  bounceRate ← percent_of_field (it !! "bounceRate");
  engagedSessions ← int_of_field (it !! "engagedSessions");
  Ok (TopPage page views avgTime bounceRate engagedSessions).

Definition top_pages (top_pages_raw : list item) : outcome (list top_page) :=
  omapM top_page_of top_pages_raw.

(** The device loop keeps the dictionary of the three buckets and the
    total. *)
Definition device_map0 : gmap string Z :=
  <["tablet" := 0]> (<["mobile" := 0]> (<["desktop" := 0]> ∅)).

Definition device_step (st : gmap string Z * Z) (it : item) : outcome (gmap string Z * Z) :=
  let '(device_map, total_device_users) := st in
  let cat := lower (default "other" (it !! "deviceCategory")) in
  users ← int_of_field (it !! "activeUsers");
  let device_map :=
    match device_map !! cat with
    | Some n => <[cat := n + users]> device_map
    | None => device_map
    end in
  Ok (device_map, total_device_users + users).

(** [d[key]] on a dictionary. *)
Definition getitem (d : gmap string Z) (key : string) : outcome Z :=
  match d !! key with
  | Some n => Ok n
  | None => Raise (Exn (OtherException "KeyError") (repr key))
  end.

(** [round(device_map[key] / max(total, 1) * 100, 1)] *)
Definition device_percent (device_map : gmap string Z) (total_device_users : Z)
    (key : string) : outcome float :=
  n ← getitem device_map key;
  q ← int_truediv n (Z.max total_device_users 1);
  Ok (round1 (fmul q f_hundred)).

Record device_breakdown := DeviceBreakdown {
  dc_labels : list string;
  dc_data : list float;
  dc_colors : list string
}.

Definition device_category (devices_raw : list item) : outcome device_breakdown :=
  '(device_map, total_device_users) ← ofold device_step (device_map0, 0) devices_raw;
  d ← device_percent device_map total_device_users "desktop";
  m ← device_percent device_map total_device_users "mobile";
  t ← device_percent device_map total_device_users "tablet";
  Ok (DeviceBreakdown ["Desktop"; "Mobile"; "Tablet"] [d; m; t]
        ["#3b82f6"; "#10b981"; "#8b5cf6"]).

Record source_series := SourceSeries {
  src_labels : list string;
  src_sessions : list Z;
  src_users : list Z
}.

Definition source_step (t : source_series) (it : item) : outcome source_series :=
  let labels := src_labels t ++ [default "(other)" (it !! "sessionDefaultChannelGroup")] in
  s ← int_of_field (it !! "sessions");
  u ← int_of_field (it !! "activeUsers");
  Ok (SourceSeries labels (src_sessions t ++ [s]) (src_users t ++ [u])).

Definition traffic_sources (sources_raw : list item) : outcome source_series :=
  ofold source_step (SourceSeries [] [] []) sources_raw.

(** ** The handler *)

Record analytics_data := AnalyticsData {
  overview : gmap string jvalue;
  trafficOverTime : traffic_series;
  topPages : list top_page;
  deviceCategory : device_breakdown;
  trafficSources : source_series
}.

Record analytics_payload := AnalyticsPayload {
  status : string;
  days_field : Z;
  startDate : string;
  endDate : string;
  data : analytics_data;
  timestamp : string
}.

(** What a request finds outside the program: the construction of the
    analytics client (which may fail), the clock read for the date window
    and the text of the clock read for the time stamp. *)
Record environment := Environment {
  new_client : outcome client;
  today : date;
  now_isoformat : string
}.

Definition overview_metrics : list string :=
  ["totalUsers"; "newUsers"; "sessions"; "engagedSessions"; "screenPageViews";
   "averageSessionDuration"; "bounceRate"; "engagementRate"; "conversions"].

Definition traffic_metrics : list string :=
  ["activeUsers"; "sessions"; "screenPageViews"; "engagedSessions"].
Definition page_metrics : list string :=
  ["screenPageViews"; "averageSessionDuration"; "bounceRate"; "engagedSessions"].
Definition device_metrics : list string := ["activeUsers"].
Definition source_metrics : list string := ["sessions"; "activeUsers"].

(** The body of the [try] block of [get_analytics]. *)
Definition analytics_body (cfg : config) (env : environment) (days : Z)
    : io analytics_payload :=
  c ← lift (new_client env);
  delta ← lift (timedelta (days - 1));
  start_date_obj ← lift (date_sub (today env) delta);
  let start_date := strftime_Y_m_d start_date_obj in
  let end_date := strftime_Y_m_d (today env) in
  overview_raw ← get_ga4_data cfg c start_date end_date overview_metrics None;
  overview ← lift (build_overview days start_date end_date overview_raw);
  traffic_raw ← get_ga4_data cfg c start_date end_date traffic_metrics (Some ["date"]);
  traffic_over_time ← lift (traffic_over_time traffic_raw);
  top_pages_raw ← get_ga4_data cfg c start_date end_date page_metrics
    (Some ["pagePath"]);
  top_pages ← lift (top_pages (take 10 top_pages_raw));
  devices_raw ← get_ga4_data cfg c start_date end_date device_metrics
    (Some ["deviceCategory"]);
  device_category ← lift (device_category devices_raw);
  sources_raw ← get_ga4_data cfg c start_date end_date source_metrics
    (Some ["sessionDefaultChannelGroup"]);
  traffic_sources ← lift (traffic_sources (take 8 sources_raw));
  lift (Ok (AnalyticsPayload "success" days start_date end_date
              (AnalyticsData overview traffic_over_time top_pages device_category
                 traffic_sources)
              (now_isoformat env))).

(** What the client of the endpoint receives. *)
Inductive http_response :=
| Http200 (body : analytics_payload)
| HttpException (status_code : Z) (detail : string)
| RequestValidationError
| UnhandledException (e : exn).

Definition status_code_of (r : http_response) : Z :=
  match r with
  | Http200 _ => 200
  | HttpException code _ => code
  | RequestValidationError => 422
  | UnhandledException _ => 500
  end.

(** The two [except] clauses of the handler, in their order. *)
Definition get_analytics (cfg : config) (env : environment) (days : Z)
    : http_response * list report_request :=
  match analytics_body cfg env days [] with
  | (Ok payload, log) => (Http200 payload, log)
  | (Raise e, log) =>
      if is_ValueError e
      then (HttpException 400 ("Invalid days value: " +:+ exn_msg e), log)
      else (HttpException 500 ("Analytics error: " +:+ exn_msg e), log)
  end.

(** ** The endpoint: authentication, validation, handler *)

(** [secrets.compare_digest(a, b)] on a string and a configured value;
    a value that is not configured is [None], which is a type error. *)
Definition compare_digest (a : string) (b : option string) : outcome bool :=
  match b with
  | Some s => Ok (String.eqb a s)
  | None =>
      Raise (Exn TypeError
               "unsupported operand types(s) or combination of types: 'str' and 'NoneType'")
  end.

(** [verify_admin]: the reply of a failed check or the verified name. *)
Definition verify_admin (cfg : config) (username password : string)
    : http_response + string :=
  match
    (is_username_correct ← compare_digest username (ADMIN_USERNAME cfg);
     is_password_correct ← compare_digest password (ADMIN_PASSWORD cfg);
     Ok (is_username_correct && is_password_correct))
  with
  | Raise e => inl (UnhandledException e)
  | Ok false => inl (HttpException 401 "Invalid credentials")
  | Ok true => inr username
  end.

(** The [days] parameter as the request carries it: absent, an integer, or
    text that is no integer. *)
Inductive query_value :=
| QAbsent
| QInt (n : Z)
| QMalformed (raw : string).

(** [days: int = Query(30, ge=1, le=365)]: the framework checks the
    declaration before it calls the handler. *)
Definition validate_days (q : query_value) : option Z :=
  match q with
  | QAbsent => Some 30
  | QInt n => if (1 <=? n) && (n <=? 365) then Some n else None
  | QMalformed _ => None
  end.

Record http_request := HttpRequest {
  credentials : option (string * string);
  days_param : query_value
}.

(** [GET /analytics]: the framework resolves the dependency [verify_admin]
    on the Basic credentials, validates the query parameter, answers a
    failed validation itself and otherwise calls the handler. *)
Definition analytics_endpoint (cfg : config) (env : environment) (req : http_request)
    : http_response * list report_request :=
  match credentials req with
  | None => (HttpException 401 "Not authenticated", [])
  | Some (username, password) =>
      match verify_admin cfg username password with
      | inl reply => (reply, [])
      | inr admin =>
          match validate_days (days_param req) with
          | None => (RequestValidationError, [])
          | Some days => get_analytics cfg env days
          end
      end
  end.

(** * Notions of the specification and sample data

    The definitions below are not part of the program: they name what the
    properties speak about (the record of a row, the sums of a category,
    the strict reading of a date) and the inputs the examples run on. *)

(** The dictionary that holds the pairs of [l], a later pair replacing an
    earlier one of the same name. *)
Definition dict_of (l : list (string * string)) : item := list_to_map (reverse l).

(** The record the specification describes for a row: the metric columns
    laid over the dimension columns. *)
Definition record_of (response : report_response) (dimensions : option (list string))
    (row : report_row) : item :=
  dict_of (zip (metric_headers response) (metric_values row))
  ∪ (if truthy dimensions
     then dict_of (zip (dimension_headers response) (dimension_values row))
     else ∅).

(** A row is well formed when it has no more values than the answer has
    headers; the backend sends exactly one value per header. *)
Definition well_formed_row (response : report_response) (dimensions : option (list string))
    (row : report_row) : Prop :=
  (length (metric_values row) <= length (metric_headers response))%nat /\
  (truthy dimensions = true ->
   (length (dimension_values row) <= length (dimension_headers response))%nat).

Definition key_le {A} (key : A -> string) (a b : A) : Prop :=
  String.leb (key a) (key b) = true.

(** A field converts when [int(float(...))] returns on it. *)
Definition converts (name : string) (row : item) : Prop :=
  exists n, int_of_field (row !! name) = Ok n.

(** The integer a field that converts stands for. *)
Definition field_int (name : string) (row : item) : Z :=
  match int_of_field (row !! name) with Ok n => n | Raise _ => 0 end.

Definition traffic_row_ok (row : item) : Prop :=
  converts "activeUsers" row /\ converts "sessions" row /\
  converts "screenPageViews" row /\ converts "engagedSessions" row.

Definition date_label (row : item) : string := format_date_label (date_key row).

(** Two daily rows out of order, the second without a date. *)
Definition sample_traffic_rows : list item :=
  [ <["date" := "20240306"]> (<["activeUsers" := "12"]> (<["sessions" := "15.0"]> ∅));
    <["activeUsers" := "3"]> (<["screenPageViews" := "7"]> ∅);
    <["date" := "20240305"]> (<["activeUsers" := "9"]> (<["engagedSessions" := "4"]> ∅)) ].

(** A backend answer with a header name used for a dimension and a metric. *)
Definition sample_response : report_response :=
  ReportResponse ["date"; "sessions"] ["sessions"; "activeUsers"]
    [ ReportRow ["20240305"; "from-dimension"] ["15"; "9"];
      ReportRow ["20240306"; "from-dimension"] ["20"; "12"] ].

Definition Zsum (l : list Z) : Z := foldr Z.add 0 l.

(** The category of a row as the loop sees it. *)
Definition row_category (it : item) : string :=
  lower (default "other" (it !! "deviceCategory")).

(** The users of the rows of one category, and of all rows. *)
Definition bucket (cat : string) (devices_raw : list item) : Z :=
  Zsum (field_int "activeUsers" <$>
          List.filter (fun it => String.eqb (row_category it) cat) devices_raw).

Definition total_users (devices_raw : list item) : Z :=
  Zsum (field_int "activeUsers" <$> devices_raw).

(** [round(b / max(t, 1) * 100, 1)] on integers [b] and [t]. *)
Definition share (b t : Z) : outcome float :=
  q ← int_truediv b (Z.max t 1); Ok (round1 (fmul q f_hundred)).

(** IEEE 754 addition of finite floats, to state sums of results. *)
Definition fadd_finite (x y : float) : float :=
  match x, y with
  | FFin nx mx ex, FFin ny my ey =>
      let '(a, b) := ratio_of mx ex in
      let '(c, d) := ratio_of my ey in
      let n := (if nx then - a else a) * d + (if ny then - c else c) * b in
      binary64_of_ratio (if n =? 0 then nx && ny else n <? 0) (Z.abs n) (b * d)
  | _, _ => FNaN
  end.

(** The float that an integer of moderate size converts to. *)
Definition whole (n : Z) : float := binary64_of_ratio (n <? 0) (Z.abs n) 1.

(** The rows of the specification's example, with categories in mixed case
    as the backend may send them. *)
Definition sample_devices : list item :=
  [ <["deviceCategory" := "desktop"]> (<["activeUsers" := "40"]> ∅);
    <["deviceCategory" := "Mobile"]> (<["activeUsers" := "40"]> ∅);
    <["deviceCategory" := "TABLET"]> (<["activeUsers" := "10"]> ∅);
    <["deviceCategory" := "smarttv"]> (<["activeUsers" := "10"]> ∅) ].

Definition device_labels : list string := ["Desktop"; "Mobile"; "Tablet"].
Definition device_colors : list string := ["#3b82f6"; "#10b981"; "#8b5cf6"].

(** A field parses when [float(...)] returns on it. *)
Definition parses (name : string) (row : item) : Prop :=
  exists f, float_of_field (row !! name) = Ok f.

(** The float a field that parses stands for. *)
Definition field_float (name : string) (row : item) : float :=
  match float_of_field (row !! name) with Ok f => f | Raise _ => f_zero end.

Definition overview_row_ok (data : item) : Prop :=
  converts "sessions" data /\ converts "totalUsers" data /\ converts "newUsers" data /\
  converts "engagedSessions" data /\ converts "screenPageViews" data /\
  parses "bounceRate" data /\ parses "engagementRate" data /\
  converts "conversions" data.

(** The conversion rate the specification describes. *)
Definition conversion_rate (conversions sessions : float) : float :=
  round1 (fmul (fdiv_ieee conversions (fmax1 sessions)) f_hundred).

(** The row of the specification's example. *)
Definition sample_overview_row : item :=
  <["sessions" := "0"]> (<["conversions" := "5"]> ∅).

(** The request [get_ga4_data] sends. *)
Definition request_of (cfg : config) (start_date end_date : string)
    (metrics : list string) (dimensions : option (list string)) : report_request :=
  ReportRequest ("properties/" +:+ str_of_option (GA4_PROPERTY_ID cfg))
    start_date end_date metrics
    (if truthy dimensions then default [] dimensions else []).

(** The records of an answer. *)
Definition records (response : report_response) (dimensions : option (list string))
    : list item :=
  record_of response dimensions <$> rows response.

Definition well_formed (response : report_response) (dimensions : option (list string))
    : Prop :=
  Forall (well_formed_row response dimensions) (rows response).

(** The date window of a request: the texts of the first and the last day. *)
Definition window (env : environment) (days : Z) : outcome (string * string) :=
  delta ← timedelta (days - 1);
  start_date_obj ← date_sub (today env) delta;
  Ok (strftime_Y_m_d start_date_obj, strftime_Y_m_d (today env)).

(** The five requests of a run of the handler, in the order they are sent. *)
Definition overview_request cfg sd ed := request_of cfg sd ed overview_metrics None.
Definition traffic_request cfg sd ed := request_of cfg sd ed traffic_metrics (Some ["date"]).
Definition pages_request cfg sd ed := request_of cfg sd ed page_metrics (Some ["pagePath"]).
Definition devices_request cfg sd ed :=
  request_of cfg sd ed device_metrics (Some ["deviceCategory"]).
Definition sources_request cfg sd ed :=
  request_of cfg sd ed source_metrics (Some ["sessionDefaultChannelGroup"]).

(** A backend that has no row for any report, and a clock. *)
Definition empty_response : report_response := ReportResponse [] [] [].
Definition sample_config : config := Config (Some "admin") (Some "secret") (Some "1234").
Definition quiet_environment : environment :=
  Environment (Ok (fun _ => Ok empty_response)) (Date 2024 3 5) "2024-03-05T12:00:00.000000".

(** A backend that answers the overview report with a sessions value that
    is no number. *)
Definition malformed_response : report_response :=
  ReportResponse [] ["sessions"] [ReportRow [] ["abc"]].
Definition malformed_environment : environment :=
  Environment (Ok (fun _ => Ok malformed_response)) (Date 2024 3 5)
    "2024-03-05T12:00:00.000000".

(** A backend that refuses every report. *)
Definition failing_environment : environment :=
  Environment
    (Ok (fun _ => Raise (Exn (OtherException "PermissionDenied") "403 permission denied")))
    (Date 2024 3 5) "2024-03-05T12:00:00.000000".

(** A value of [days] that the declaration of the parameter refuses. *)
Definition days_rejected (q : query_value) : Prop :=
  match q with
  | QAbsent => False
  | QInt n => n < 1 \/ 365 < n
  | QMalformed _ => True
  end.

(** [P] on the integers from [lo] to [lo + p - 1]. *)
Fixpoint forall_range (p : positive) (lo : Z) (P : Z -> bool) : bool :=
  match p with
  | xH => P lo
  | xO p' => forall_range p' lo P && forall_range p' (lo + Z.pos p') P
  | xI p' => P lo && forall_range p' (lo + 1) P && forall_range p' (lo + 1 + Z.pos p') P
  end.

(** A number below one hundred written with two digits. *)
Definition two_digits (n : Z) : string :=
  String (digit_char (n / 10)) (String (digit_char (n mod 10)) EmptyString).

(** The floor of a finite float. *)
Definition float_floor (f : float) : Z :=
  match f with
  | FFin neg m e => let '(a, b) := ratio_of m e in (if neg then - a else a) / b
  | _ => 0
  end.

(** Minutes and seconds of the floor of a number of seconds. *)
Definition duration_by_floor (f : float) : string :=
  str_of_Z (float_floor f / 60) +:+ ":" +:+ format_02d (float_floor f mod 60).

(** The text the code produces from the integer [int(float(s))]. *)
Definition duration_of (t : Z) : string :=
  str_of_Z (t / 60) +:+ ":" +:+ format_02d (t mod 60).

(** The strict reading of the format: eight digits [YYYYMMDD] that name a
    date of the calendar. *)
Definition parse_yyyymmdd (s : string) : option date :=
  match s with
  | String c1 (String c2 (String c3 (String c4 (String c5 (String c6
      (String c7 (String c8 EmptyString))))))) =>
      if is_digit c1 && is_digit c2 && is_digit c3 && is_digit c4 &&
         is_digit c5 && is_digit c6 && is_digit c7 && is_digit c8
      then
        let d := Date (1000 * digit_val c1 + 100 * digit_val c2 + 10 * digit_val c3
                       + digit_val c4)
                      (10 * digit_val c5 + digit_val c6)
                      (10 * digit_val c7 + digit_val c8) in
        if valid_date d then Some d else None
      else None
  | _ => None
  end.

(** The label the specification describes. *)
Definition label_of (d : date) : string :=
  month_abbr (month d) +:+ " " +:+ two_digits (day d).

(** On a two-digit month from 01 to 12 followed by a two-digit day from 01
    to 31 the expression matches exactly these two groups. *)
Definition md_check (m d : Z) : bool :=
  match match_md (two_digits m +:+ two_digits d) with
  | Some (gm, gd, r) =>
      String.eqb gm (two_digits m) && String.eqb gd (two_digits d) && String.eqb r ""
  | None => false
  end.

(** The month and the day of the [r]-th day (from 0) of a year, as the end
    of [ord2ymd] computes them. *)
Definition month_day (r : Z) (leap : bool) : Z * Z :=
  let m := (r + 50) / 32 in
  let preceding := table DAYS_BEFORE_MONTH m + (if (2 <? m) && leap then 1 else 0) in
  if r <? preceding then
    let m := m - 1 in
    let preceding :=
      preceding - (table DAYS_IN_MONTH m + (if (m =? 2) && leap then 1 else 0)) in
    (m, r - preceding + 1)
  else (m, r - preceding + 1).

Definition month_day_check (leap : bool) (r : Z) : bool :=
  let '(m, d) := month_day r leap in
  (1 <=? m) && (m <=? 12) && (1 <=? d) &&
  (d <=? (if (m =? 2) && leap then 29 else table DAYS_IN_MONTH m)) &&
  (table DAYS_BEFORE_MONTH m + (if (2 <? m) && leap then 1 else 0) + d =? r + 1).

(** The pieces [ord2ymd] cuts an ordinal into. *)
Definition cycles (ordinal : Z) : Z * Z * Z * Z * Z :=
  let n := ordinal - 1 in
  let n400 := n / 146097 in
  let n := n mod 146097 in
  let n100 := n / 36524 in
  let n := n mod 36524 in
  let n4 := n / 1461 in
  let n := n mod 1461 in
  (n400, n100, n4, n / 365, n mod 365).

Definition year_check (y : Z) : bool :=
  (days_before_year y + 365 + (if is_leap y then 1 else 0) <=? MAXORDINAL) &&
  ((y <? 1001) || (365242 <=? days_before_year y)).

(** A year of four digits and the date written [YYYY-MM-DD]. *)
Definition four_digits_text (y : Z) : string :=
  String (digit_char (y / 1000)) (String (digit_char (y / 100 mod 10))
    (String (digit_char (y / 10 mod 10)) (String (digit_char (y mod 10)) EmptyString))).

Definition iso_text (d : date) : string :=
  four_digits_text (year d) +:+ "-" +:+ two_digits (month d) +:+ "-" +:+ two_digits (day d).

(** ** Notions for the authentication gate and the fetcher *)

(** Both secrets are set, to [u0] and [p0]. *)
Definition secrets_are (cfg : config) (u0 p0 : string) : Prop :=
  ADMIN_USERNAME cfg = Some u0 /\ ADMIN_PASSWORD cfg = Some p0.

(** A backend answer whose second row carries one metric value too many. *)
Definition overlong_response : report_response :=
  ReportResponse ["date"] ["sessions"]
    [ ReportRow ["20240305"] ["15"]; ReportRow ["20240306"] ["20"; "21"] ].

(** ** Notions for top pages and traffic sources *)

Definition page_row_ok (row : item) : Prop :=
  converts "screenPageViews" row /\ parses "bounceRate" row /\
  converts "engagedSessions" row.

(** The entry of a row in the list of top pages. *)
Definition page_entry (row : item) : top_page :=
  TopPage (default "(not set)" (row !! "pagePath"))
    (field_int "screenPageViews" row)
    (format_duration (default "0" (row !! "averageSessionDuration")))
    (round1 (fmul (field_float "bounceRate" row) f_hundred))
    (field_int "engagedSessions" row).

Definition source_row_ok (row : item) : Prop :=
  converts "sessions" row /\ converts "activeUsers" row.

Definition source_label (row : item) : string :=
  default "(other)" (row !! "sessionDefaultChannelGroup").

(** A page row, and a row whose views are no number. *)
Definition good_page_row : item :=
  <["pagePath" := "/home"]> (<["screenPageViews" := "120"]>
    (<["averageSessionDuration" := "125.7"]> (<["bounceRate" := "0.25"]> ∅))).
Definition bad_page_row : item := <["screenPageViews" := "many"]> ∅.

Definition good_source_row : item :=
  <["sessionDefaultChannelGroup" := "Direct"]> (<["sessions" := "12"]>
    (<["activeUsers" := "9"]> ∅)).

(** ** Notions for the run of the handler *)

(** The five requests of a run, in the order they are sent. *)
Definition five_requests (cfg : config) (sd ed : string) : list report_request :=
  [ overview_request cfg sd ed; traffic_request cfg sd ed; pages_request cfg sd ed;
    devices_request cfg sd ed; sources_request cfg sd ed ].

(** A backend that answers the overview and then refuses the daily report. *)
Definition second_report_fails : client := fun request =>
  match rq_dimensions request with
  | [] => Ok empty_response
  | _ => Raise (Exn (OtherException "ServiceUnavailable") "503 backend unavailable")
  end.
Definition flaky_environment : environment :=
  Environment (Ok second_report_fails) (Date 2024 3 5) "2024-03-05T12:00:00.000000".

(** ** Notions for the overview and the device buckets *)

(** The keys of an overview that is not empty. *)
Definition overview_keys : gset string :=
  list_to_set
    ["periodDays"; "startDate"; "endDate"; "totalUsers"; "newUsers"; "sessions";
     "engagedSessions"; "pageViews"; "avgSessionDuration"; "bounceRate";
     "engagementRate"; "conversions"; "conversionRate"].

(** [round(float(row[name]) * 100, 1)] for a field that parses. *)
Definition field_percent (name : string) (row : item) : float :=
  round1 (fmul (field_float name row) f_hundred).

(** A row of one of the three named categories. *)
Definition classified (it : item) : bool :=
  String.eqb (row_category it) "desktop" || String.eqb (row_category it) "mobile"
  || String.eqb (row_category it) "tablet".

(** The users of the rows of no named category. *)
Definition unclassified_users (devices_raw : list item) : Z :=
  Zsum (field_int "activeUsers" <$>
          List.filter (fun it => negb (classified it)) devices_raw).

Definition device_keys : gset string := list_to_set ["desktop"; "mobile"; "tablet"].

(** A full overview row. *)
Definition full_overview_row : item :=
  <["totalUsers" := "1200"]> (<["newUsers" := "300"]> (<["sessions" := "1500"]>
  (<["engagedSessions" := "900"]> (<["screenPageViews" := "4200"]>
  (<["averageSessionDuration" := "125.4"]> (<["bounceRate" := "0.4"]>
  (<["engagementRate" := "0.6"]> (<["conversions" := "30"]> ∅)))))))).

(** ** Notions for eight-digit dates *)

Fixpoint all_digits (s : string) : bool :=
  match s with
  | EmptyString => true
  | String c s' => is_digit c && all_digits s'
  end.

(** On four digits the expression for the month and the day either fails,
    or leaves text over, or takes two digits for a month from 01 to 12 and
    two digits for the day. *)
Definition md_digits_check (k : Z) : bool :=
  match match_md (four_digits_text k) with
  | None => true
  | Some (gm, gd, r) =>
      if String.eqb r "" then
        String.eqb gm (two_digits (k / 100)) && String.eqb gd (two_digits (k mod 100)) &&
        (1 <=? k / 100) && (k / 100 <=? 12)
      else true
  end.

(** * Properties *)

Lemma obind_Ok {A B} (m : outcome A) (k : A -> outcome B) (b : B) :
  (a ← m; k a) = Ok b -> exists a, m = Ok a /\ k a = Ok b.
Proof. destruct m as [a|e]; simpl; [eauto | discriminate]. Qed.

Lemma omapM_fmap {A B} (f : A -> outcome B) (g : A -> B) (l : list A) :
  (forall a, a ∈ l -> f a = Ok (g a)) -> omapM f l = Ok (g <$> l).
Proof.
  induction l as [|a l IH]; intros H; simpl; [reflexivity|].
  rewrite (H a) by constructor. simpl.
  rewrite IH; [reflexivity|]. intros b Hb. apply H. by constructor.
Qed.

(** ** The report fetcher *)

Lemma store_values_spec (headers : list string) (values : list string) :
  forall (i : nat) (it : item),
    (i + length values <= length headers)%nat ->
    store_values headers i values it = Ok (dict_of (zip (drop i headers) values) ∪ it).
Proof.
  induction values as [|v values IH]; intros i it Hlen; simpl in *.
  - unfold dict_of. rewrite zip_with_nil_r. simpl. by rewrite (left_id_L ∅ (∪)).
  - destruct (headers !! i) as [h|] eqn:Hh.
    2: { apply lookup_ge_None in Hh. lia. }
    rewrite IH by lia. f_equal.
    rewrite (drop_S _ _ _ Hh). simpl. unfold dict_of.
    rewrite reverse_cons, list_to_map_app. simpl.
    rewrite <- (assoc_L (∪)). f_equal.
    rewrite insert_empty. apply insert_union_singleton_l.
Qed.

Lemma row_item_spec response dimensions row :
  well_formed_row response dimensions row ->
  row_item response dimensions row = Ok (record_of response dimensions row).
Proof.
  intros [Hm Hd]. unfold row_item, record_of.
  destruct (truthy dimensions).
  - rewrite store_values_spec by (simpl; auto). simpl.
    rewrite store_values_spec by (simpl; auto). simpl.
    by rewrite (right_id_L ∅ (∪)).
  - simpl. by rewrite store_values_spec by (simpl; auto).
Qed.

(** C8. The fetcher sends one request and, for an answer whose rows are
    well formed, returns one record per row in the order of the rows; a
    record holds the metric columns laid over the dimension columns (the
    latter only when dimensions were requested), so a name that is both a
    metric header and a dimension header carries the metric value. *)
Theorem get_ga4_data_records :
  forall cfg (c : client) start_date end_date metrics dimensions response log,
    c (ReportRequest ("properties/" +:+ str_of_option (GA4_PROPERTY_ID cfg))
         start_date end_date metrics
         (if truthy dimensions then default [] dimensions else [])) = Ok response ->
    Forall (well_formed_row response dimensions) (rows response) ->
    exists items,
      fst (get_ga4_data cfg c start_date end_date metrics dimensions log) = Ok items /\
      items = record_of response dimensions <$> rows response /\
      length items = length (rows response) /\
      (forall (i : nat) row, rows response !! i = Some row ->
         exists it, items !! i = Some it /\
           forall name value,
             dict_of (zip (metric_headers response) (metric_values row)) !! name
               = Some value ->
             it !! name = Some value) /\
      (forall (i : nat) row, rows response !! i = Some row ->
         exists it, items !! i = Some it /\
           forall name,
             dict_of (zip (metric_headers response) (metric_values row)) !! name = None ->
             it !! name =
               if truthy dimensions
               then dict_of (zip (dimension_headers response) (dimension_values row)) !! name
               else None).
Proof.
  intros cfg c start_date end_date metrics dimensions response log Hc Hwf.
  exists (record_of response dimensions <$> rows response).
  split; [|split; [reflexivity|split; [by rewrite length_fmap|split]]].
  - unfold get_ga4_data, run_report, mbind, io_bind, lift. rewrite Hc. simpl.
    apply omapM_fmap. intros row Hrow. apply row_item_spec.
    rewrite Forall_forall in Hwf. by apply Hwf.
  - intros i row Hi. exists (record_of response dimensions row). split.
    + by rewrite list_lookup_fmap, Hi.
    + intros name value Hv. unfold record_of. by apply lookup_union_Some_l.
  - intros i row Hi. exists (record_of response dimensions row). split.
    + by rewrite list_lookup_fmap, Hi.
    + intros name Hn. unfold record_of. rewrite lookup_union_r by done.
      by destruct (truthy dimensions).
Qed.

(** ** Sorting by a string key *)

Lemma leb_iff (s1 s2 : string) :
  String.leb s1 s2 = true <-> s1 = s2 \/ OrderedTypeEx.String_as_OT.lt s1 s2.
Proof.
  unfold String.leb. split.
  - destruct (String.compare s1 s2) eqn:Hc; intros H.
    + left. by apply String.compare_eq_iff.
    + right. by apply OrderedTypeEx.String_as_OT.cmp_lt.
    + discriminate.
  - intros [->|Hlt].
    + replace (String.compare s2 s2) with Eq; [reflexivity|].
      symmetry. by apply OrderedTypeEx.String_as_OT.cmp_eq.
    + apply OrderedTypeEx.String_as_OT.cmp_lt in Hlt.
      unfold OrderedTypeEx.String_as_OT.cmp in Hlt. by rewrite Hlt.
Qed.

Lemma leb_trans (s1 s2 s3 : string) :
  String.leb s1 s2 = true -> String.leb s2 s3 = true -> String.leb s1 s3 = true.
Proof.
  rewrite !leb_iff. intros [->|H12] [->|H23]; auto.
  right. eapply OrderedTypeEx.String_as_OT.lt_trans; eauto.
Qed.

Lemma leb_empty (s : string) : String.leb "" s = true.
Proof. by destruct s. Qed.

Section Sorting.
Context {A : Type} (key : A -> string).

Lemma insert_by_perm (x : A) (l : list A) : Permutation (insert_by key x l) (x :: l).
Proof.
  induction l as [|y l IH]; simpl; [reflexivity|].
  destruct (String.leb (key x) (key y)); [reflexivity|].
  rewrite IH. apply perm_swap.
Qed.

Lemma sorted_perm (l : list A) : Permutation (sorted key l) l.
Proof.
  induction l as [|x l IH]; simpl; [reflexivity|].
  rewrite insert_by_perm. by constructor.
Qed.

Lemma sorted_length (l : list A) : length (sorted key l) = length l.
Proof. apply Permutation_length, sorted_perm. Qed.

Lemma insert_by_sorted (x : A) (l : list A) :
  StronglySorted (key_le key) l -> StronglySorted (key_le key) (insert_by key x l).
Proof.
  induction 1 as [|y l Hs IH Hy]; simpl.
  - repeat constructor.
  - destruct (String.leb (key x) (key y)) eqn:Hxy.
    + constructor; [by constructor|]. constructor; [exact Hxy|].
      eapply Forall_impl; [exact Hy|]. intros z Hz.
      unfold key_le in *. by eapply leb_trans.
    + constructor; [exact IH|].
      eapply Permutation_Forall; [symmetry; apply insert_by_perm|].
      constructor; [|exact Hy]. unfold key_le.
      destruct (String.leb_total (key x) (key y)) as [H|H]; congruence.
Qed.

Lemma sorted_sorted (l : list A) : StronglySorted (key_le key) (sorted key l).
Proof.
  induction l as [|x l IH]; simpl; [constructor|]. by apply insert_by_sorted.
Qed.

(** Rows of equal key keep the order they arrived in: the rows of any one
    key appear in the result as they appear in the input. *)
Lemma insert_by_filter (k : string) (x : A) (l : list A) :
  StronglySorted (key_le key) l ->
  List.filter (fun a => String.eqb (key a) k) (insert_by key x l)
  = List.filter (fun a => String.eqb (key a) k) (x :: l).
Proof.
  induction 1 as [|y l Hs IH Hy]; [reflexivity|].
  cbn [insert_by]. destruct (String.leb (key x) (key y)) eqn:Hxy; [reflexivity|].
  cbn [List.filter] in *. rewrite IH.
  destruct (String.eqb (key x) k) eqn:Hx, (String.eqb (key y) k) eqn:Hyk; try reflexivity.
  apply String.eqb_eq in Hx, Hyk. subst k. rewrite Hyk in Hxy.
  rewrite (proj2 (leb_iff _ _)) in Hxy by auto. discriminate.
Qed.

Lemma sorted_stable (k : string) (l : list A) :
  List.filter (fun a => String.eqb (key a) k) (sorted key l)
  = List.filter (fun a => String.eqb (key a) k) l.
Proof.
  induction l as [|x l IH]; [reflexivity|].
  cbn [sorted]. rewrite insert_by_filter by apply sorted_sorted.
  cbn [List.filter]. by rewrite IH.
Qed.
End Sorting.

(** ** Traffic over time *)

Lemma converts_field_int name row :
  converts name row -> int_of_field (row !! name) = Ok (field_int name row).
Proof. intros [n Hn]. unfold field_int. by rewrite Hn. Qed.

Lemma traffic_fold (l : list item) :
  forall t, Forall traffic_row_ok l ->
    ofold traffic_step t l =
    Ok (TrafficSeries
          (ts_labels t ++ (date_label <$> l))
          (ts_activeUsers t ++ (field_int "activeUsers" <$> l))
          (ts_sessions t ++ (field_int "sessions" <$> l))
          (ts_pageViews t ++ (field_int "screenPageViews" <$> l))
          (ts_engagedSessions t ++ (field_int "engagedSessions" <$> l))).
Proof.
  induction l as [|row l IH]; intros t Hl.
  - simpl. rewrite !app_nil_r. by destruct t.
  - inversion Hl as [|? ? (Ha & Hs & Hp & He) Hl']; subst.
    cbn [ofold]. unfold traffic_step.
    rewrite (converts_field_int _ _ Ha), (converts_field_int _ _ Hs),
      (converts_field_int _ _ Hp), (converts_field_int _ _ He).
    cbn [mbind outcome_bind]. rewrite IH by assumption.
    cbn [ts_labels ts_activeUsers ts_sessions ts_pageViews ts_engagedSessions fmap list_fmap].
    by rewrite <- !app_assoc.
Qed.

Lemma traffic_fold_inv (l : list item) :
  forall t t', ofold traffic_step t l = Ok t' -> Forall traffic_row_ok l.
Proof.
  induction l as [|row l IH]; intros t t' H; [constructor|].
  cbn [ofold] in H. apply obind_Ok in H as (t1 & Hstep & Hrest).
  constructor; [|by eapply IH].
  unfold traffic_step in Hstep.
  apply obind_Ok in Hstep as (a & Ha & Hstep).
  apply obind_Ok in Hstep as (s & Hs & Hstep).
  apply obind_Ok in Hstep as (p & Hp & Hstep).
  apply obind_Ok in Hstep as (e & He & Hstep).
  unfold traffic_row_ok, converts. eauto 10.
Qed.

(** The handler raises as soon as one row has a field that does not
    convert, whatever the order of the rows. *)
Lemma traffic_over_time_Ok_inv (traffic_raw : list item) (t : traffic_series) :
  traffic_over_time traffic_raw = Ok t -> Forall traffic_row_ok traffic_raw.
Proof.
  intros H. apply traffic_fold_inv in H.
  eapply Permutation_Forall; [apply sorted_perm|exact H].
Qed.

(** C9. When the fields of the fetched rows convert, [trafficOverTime] is
    made of five lists with one entry per fetched row, in the order of the
    rows sorted by their raw date (a row without a date counts as the
    empty string, which is below every string); the labels are the
    formatted dates and the four other lists hold [int(float(...))] of the
    row's values, which is 0 for a key that is missing. *)
Theorem traffic_over_time_series :
  forall traffic_raw : list item,
    Forall traffic_row_ok traffic_raw ->
    let ordered := sorted date_key traffic_raw in
    Permutation ordered traffic_raw /\
    StronglySorted (key_le date_key) ordered /\
    (forall k, List.filter (fun r => String.eqb (date_key r) k) ordered
               = List.filter (fun r => String.eqb (date_key r) k) traffic_raw) /\
    (forall row, row !! "date" = None ->
       date_key row = "" /\ forall r, key_le date_key row r) /\
    (forall name row, row !! name = None -> field_int name row = 0) /\
    exists t,
      traffic_over_time traffic_raw = Ok t /\
      ts_labels t = date_label <$> ordered /\
      ts_activeUsers t = field_int "activeUsers" <$> ordered /\
      ts_sessions t = field_int "sessions" <$> ordered /\
      ts_pageViews t = field_int "screenPageViews" <$> ordered /\
      ts_engagedSessions t = field_int "engagedSessions" <$> ordered /\
      length (ts_labels t) = length traffic_raw /\
      length (ts_activeUsers t) = length traffic_raw /\
      length (ts_sessions t) = length traffic_raw /\
      length (ts_pageViews t) = length traffic_raw /\
      length (ts_engagedSessions t) = length traffic_raw.
Proof.
  intros traffic_raw Hok ordered.
  split; [apply sorted_perm|]. split; [apply sorted_sorted|].
  split; [intros k; apply sorted_stable|].
  split.
  { intros row Hrow. unfold key_le, date_key. rewrite Hrow. simpl.
    split; [reflexivity|]. intros r. apply leb_empty. }
  split.
  { intros name row Hrow. unfold field_int. by rewrite Hrow. }
  eexists. split.
  - unfold traffic_over_time. apply traffic_fold.
    eapply Permutation_Forall; [symmetry; apply sorted_perm|exact Hok].
  - cbn [ts_labels ts_activeUsers ts_sessions ts_pageViews ts_engagedSessions app].
    rewrite !length_fmap. unfold ordered. rewrite sorted_length. tauto.
Qed.

Lemma sample_traffic_rows_ok : Forall traffic_row_ok sample_traffic_rows.
Proof.
  repeat constructor; unfold converts; eexists; vm_compute; reflexivity.
Defined.

Lemma traffic_over_time_series_witness :
  exists t,
    traffic_over_time sample_traffic_rows = Ok t /\
    ts_labels t = date_label <$> sorted date_key sample_traffic_rows /\
    length (ts_labels t) = 3%nat /\
    length (ts_activeUsers t) = 3%nat.
Proof.
  destruct (traffic_over_time_series sample_traffic_rows sample_traffic_rows_ok)
    as (_ & _ & _ & _ & _ & t & Ht & Hl & _ & _ & _ & _ & Hn & Hm & _).
  exists t. repeat split; assumption.
Defined.

Example traffic_over_time_sample :
  traffic_over_time sample_traffic_rows
  = Ok (TrafficSeries [""; "Mar 05"; "Mar 06"] [3; 9; 12] [0; 0; 15] [7; 0; 0] [0; 4; 0]).
Proof. vm_compute. reflexivity. Qed.

Lemma get_ga4_data_records_witness :
  exists items,
    fst (get_ga4_data (Config None None (Some "1234")) (fun _ => Ok sample_response)
           "2024-03-05" "2024-03-06" ["sessions"; "activeUsers"] (Some ["date"; "sessions"]) [])
    = Ok items /\
    items = record_of sample_response (Some ["date"; "sessions"]) <$> rows sample_response /\
    length items = 2%nat.
Proof.
  destruct (get_ga4_data_records (Config None None (Some "1234"))
              (fun _ => Ok sample_response) "2024-03-05" "2024-03-06"
              ["sessions"; "activeUsers"] (Some ["date"; "sessions"]) sample_response []
              eq_refl)
    as (items & H1 & H2 & H3 & _).
  - repeat constructor; simpl; lia.
  - exists items. repeat split; assumption.
Defined.

Example get_ga4_data_sample :
  match fst (get_ga4_data (Config None None (Some "1234")) (fun _ => Ok sample_response)
               "2024-03-05" "2024-03-06" ["sessions"; "activeUsers"]
               (Some ["date"; "sessions"]) []) with
  | Ok items => (fun it : item => (it !! "date", it !! "sessions", it !! "activeUsers")) <$> items
  | Raise _ => []
  end
  = [ (Some "20240305", Some "15", Some "9"); (Some "20240306", Some "20", Some "12") ].
Proof. vm_compute. reflexivity. Qed.

(** ** Device breakdown *)

Lemma device_step_Ok (dm : gmap string Z) (tot : Z) (it : item) :
  converts "activeUsers" it ->
  device_step (dm, tot) it =
  Ok (match dm !! row_category it with
      | Some n => <[row_category it := n + field_int "activeUsers" it]> dm
      | None => dm
      end, tot + field_int "activeUsers" it).
Proof.
  intros Hit. unfold device_step. by rewrite (converts_field_int _ _ Hit).
Qed.

Lemma device_fold (l : list item) :
  forall (dm : gmap string Z) (tot : Z),
    Forall (converts "activeUsers") l ->
    exists dm',
      ofold device_step (dm, tot) l = Ok (dm', tot + total_users l) /\
      forall c, dm' !! c = (fun n => n + bucket c l) <$> dm !! c.
Proof.
  induction l as [|it l IH]; intros dm tot Hl.
  - exists dm. split.
    + simpl. unfold total_users. simpl. by rewrite Z.add_0_r.
    + intros c. unfold bucket. simpl. destruct (dm !! c); simpl; [|done].
      by rewrite Z.add_0_r.
  - inversion Hl as [|? ? Hit Hl']; subst.
    cbn [ofold]. rewrite (device_step_Ok _ _ _ Hit). cbn [mbind outcome_bind].
    set (u := field_int "activeUsers" it).
    set (dm1 := match dm !! row_category it with
                | Some n => <[row_category it := n + u]> dm
                | None => dm
                end).
    destruct (IH dm1 (tot + u) Hl') as (dm' & Hfold & Hdm').
    exists dm'. split.
    + rewrite Hfold. unfold total_users. cbn [fmap list_fmap Zsum foldr].
      fold u. f_equal. f_equal. unfold total_users, Zsum. lia.
    + intros c. rewrite Hdm'. unfold bucket. cbn [List.filter].
      destruct (String.eqb (row_category it) c) eqn:Hc.
      * apply String.eqb_eq in Hc. subst c. subst dm1.
        cbn [fmap list_fmap Zsum foldr]. fold u.
        destruct (dm !! row_category it) as [n|] eqn:Hn.
        -- rewrite lookup_insert_eq. simpl. f_equal. unfold Zsum. lia.
        -- rewrite Hn. reflexivity.
      * apply String.eqb_neq in Hc. subst dm1.
        destruct (dm !! row_category it) as [n|] eqn:Hn; [|reflexivity].
        by rewrite lookup_insert_ne.
Qed.

Lemma bucket_le_total (cat : string) (l : list item) :
  Forall (fun it => 0 <= field_int "activeUsers" it) l ->
  0 <= bucket cat l <= total_users l.
Proof.
  unfold bucket, total_users, Zsum.
  induction 1 as [|it l Hit Hl IH]; cbn [List.filter fmap list_fmap foldr]; [lia|].
  destruct (String.eqb (row_category it) cat); cbn [fmap list_fmap foldr]; lia.
Qed.

(** A quotient that is at most one rounds to a finite float. *)
Lemma binary64_of_ratio_le_finite (neg : bool) (n d : Z) :
  0 <= n <= d -> is_finite (binary64_of_ratio neg n d) = true.
Proof.
  intros Hnd. unfold binary64_of_ratio.
  destruct (n =? 0) eqn:Hn0; [reflexivity|].
  apply Z.eqb_neq in Hn0.
  assert (He0 : Z.log2 n - Z.log2 d <= 0).
  { pose proof (Z.log2_le_mono n d). lia. }
  set (e0 := Z.log2 n - Z.log2 d) in *.
  set (e1 := if n * 2 ^ Z.max 0 (- e0) <? d * 2 ^ Z.max 0 e0 then e0 - 1 else e0).
  assert (He1 : e1 <= 0) by (subst e1; destruct (_ <? _); lia).
  set (e := Z.max (e1 - 52) (-1074)).
  assert (He : e <= -52) by (subst e; lia).
  set (m := if 0 <=? e then round_half_even n (d * 2 ^ e)
            else round_half_even (n * 2 ^ (- e)) d).
  destruct (m =? 2 ^ 53).
  - destruct (2 ^ 52 =? 0); [reflexivity|].
    destruct (971 <? e + 1) eqn:Hbig; [apply Z.ltb_lt in Hbig; lia|reflexivity].
  - destruct (m =? 0); [reflexivity|].
    destruct (971 <? e) eqn:Hbig; [apply Z.ltb_lt in Hbig; lia|reflexivity].
Qed.

Lemma share_total (b t : Z) :
  0 <= b <= t -> exists q, share b t = Ok q.
Proof.
  intros Hbt. unfold share, int_truediv.
  destruct (Z.max t 1 =? 0) eqn:Hz; [apply Z.eqb_eq in Hz; lia|].
  replace (xorb (b <? 0) (Z.max t 1 <? 0)) with false.
  2: { symmetry. rewrite (proj2 (Z.ltb_ge b 0)) by lia.
       by rewrite (proj2 (Z.ltb_ge (Z.max t 1) 0)) by lia. }
  pose proof (binary64_of_ratio_le_finite false (Z.abs b) (Z.abs (Z.max t 1))) as Hfin.
  destruct (binary64_of_ratio false (Z.abs b) (Z.abs (Z.max t 1))).
  - simpl. eauto.
  - simpl in Hfin. assert (false = true) by (apply Hfin; lia). discriminate.
  - simpl. eauto.
Qed.

Lemma share_no_zero_division (b t : Z) (e : exn) :
  share b t = Raise e -> exn_cls e = OverflowError.
Proof.
  unfold share, int_truediv.
  destruct (Z.max t 1 =? 0) eqn:Hz; [apply Z.eqb_eq in Hz; lia|].
  destruct (binary64_of_ratio _ _ _); simpl; intros H; inversion H; reflexivity.
Qed.

(** C7. In the device breakdown a row counts under its lower-cased
    category when that is one of desktop, mobile and tablet, and every row
    counts in the total; the three figures are
    [round(bucket / max(total, 1) * 100, 1)].  The division is never a
    division by zero, and figures exist whenever no count is negative.  On
    the counts 40, 40, 10 and 10 (a smart TV) the figures are 40.0, 40.0 and
    10.0, which add up to 90.0. *)
Theorem device_category_shares :
  (forall devices_raw : list item,
     Forall (converts "activeUsers") devices_raw ->
     let total := total_users devices_raw in
     device_category devices_raw =
       (d ← share (bucket "desktop" devices_raw) total;
        m ← share (bucket "mobile" devices_raw) total;
        t ← share (bucket "tablet" devices_raw) total;
        Ok (DeviceBreakdown device_labels [d; m; t] device_colors)) /\
     (forall e, device_category devices_raw = Raise e -> exn_cls e = OverflowError) /\
     (Forall (fun it => 0 <= field_int "activeUsers" it) devices_raw ->
      exists d m t,
        share (bucket "desktop" devices_raw) total = Ok d /\
        share (bucket "mobile" devices_raw) total = Ok m /\
        share (bucket "tablet" devices_raw) total = Ok t /\
        device_category devices_raw = Ok (DeviceBreakdown device_labels [d; m; t] device_colors)))
  /\
  (bucket "desktop" sample_devices = 40 /\ bucket "mobile" sample_devices = 40 /\
   bucket "tablet" sample_devices = 10 /\ total_users sample_devices = 100 /\
   device_category sample_devices =
     Ok (DeviceBreakdown device_labels [whole 40; whole 40; whole 10] device_colors) /\
   fadd_finite (fadd_finite (whole 40) (whole 40)) (whole 10) = whole 90).
Proof.
  split; [|vm_compute; repeat split; reflexivity].
  intros devices_raw Hconv total.
  assert (Heq : device_category devices_raw =
       (d ← share (bucket "desktop" devices_raw) total;
        m ← share (bucket "mobile" devices_raw) total;
        t ← share (bucket "tablet" devices_raw) total;
        Ok (DeviceBreakdown device_labels [d; m; t] device_colors))).
  { unfold device_category.
    destruct (device_fold devices_raw device_map0 0 Hconv) as (dm & Hfold & Hdm).
    rewrite Hfold. cbn [mbind outcome_bind]. rewrite Z.add_0_l. fold total.
    unfold device_percent, getitem. rewrite !Hdm.
    unfold device_map0. simplify_map_eq. reflexivity. }
  split; [exact Heq|]. split.
  - intros e. rewrite Heq.
    destruct (share (bucket "desktop" devices_raw) total) as [d|e1] eqn:Hd;
      [|intros H; inversion H; subst; by eapply share_no_zero_division].
    destruct (share (bucket "mobile" devices_raw) total) as [m|e2] eqn:Hm;
      [|intros H; inversion H; subst; by eapply share_no_zero_division].
    destruct (share (bucket "tablet" devices_raw) total) as [t|e3] eqn:Ht;
      [|intros H; inversion H; subst; by eapply share_no_zero_division].
    discriminate.
  - intros Hpos.
    destruct (share_total (bucket "desktop" devices_raw) total) as [d Hd];
      [by apply bucket_le_total|].
    destruct (share_total (bucket "mobile" devices_raw) total) as [m Hm];
      [by apply bucket_le_total|].
    destruct (share_total (bucket "tablet" devices_raw) total) as [t Ht];
      [by apply bucket_le_total|].
    exists d, m, t. rewrite Heq, Hd, Hm, Ht. auto.
Qed.

Lemma sample_devices_convert : Forall (converts "activeUsers") sample_devices.
Proof. repeat constructor; eexists; vm_compute; reflexivity. Defined.

Lemma device_category_shares_witness :
  device_category sample_devices =
    (d ← share 40 100; m ← share 40 100; t ← share 10 100;
     Ok (DeviceBreakdown device_labels [d; m; t] device_colors)).
Proof.
  exact (proj1 (proj1 device_category_shares sample_devices sample_devices_convert)).
Defined.

(** ** Overview *)

Lemma parses_field_float name row :
  parses name row -> float_of_field (row !! name) = Ok (field_float name row).
Proof. intros [f Hf]. unfold field_float. by rewrite Hf. Qed.

Lemma converts_parses name row : converts name row -> parses name row.
Proof.
  intros [n Hn]. unfold int_of_field in Hn.
  apply obind_Ok in Hn as (f & Hf & _). by exists f.
Qed.

Lemma converts_int_of_float name row :
  converts name row -> int_of_float (field_float name row) = Ok (field_int name row).
Proof.
  intros H. pose proof (converts_field_int _ _ H) as Hi.
  unfold int_of_field in Hi.
  by rewrite (parses_field_float _ _ (converts_parses _ _ H)) in Hi.
Qed.

Lemma f_one_not_zero : is_zero f_one = false.
Proof. reflexivity. Qed.

Lemma ratio_of_pos (m e : Z) : 0 < snd (ratio_of m e).
Proof.
  unfold ratio_of. destruct (0 <=? e) eqn:He; simpl; [lia|].
  apply Z.leb_gt in He. apply Z.pow_pos_nonneg; lia.
Qed.

(** [max(x, 1)] is never zero, so the division of the overview never
    divides by zero. *)
Lemma fmax1_not_zero (x : float) : is_zero (fmax1 x) = false.
Proof.
  unfold fmax1. destruct (flt x f_one) eqn:Hlt; [reflexivity|].
  destruct x as [|neg|neg m e]; try reflexivity.
  simpl. destruct (m =? 0) eqn:Hm; [|reflexivity].
  apply Z.eqb_eq in Hm. subst m. exfalso.
  unfold flt in Hlt. change f_one with (FFin false (2 ^ 52) (-52)) in Hlt.
  pose proof (ratio_of_pos 0 e) as Hpos.
  assert (Hfst : fst (ratio_of 0 e) = 0).
  { unfold ratio_of. destruct (0 <=? e); reflexivity. }
  destruct (ratio_of 0 e) as [a b]. simpl in Hpos, Hfst. subst a.
  change (ratio_of (2 ^ 52) (-52)) with (2 ^ 52, 2 ^ 52) in Hlt.
  cbv iota beta in Hlt. apply Z.ltb_ge in Hlt.
  assert (0 < 2 ^ 52) by (apply Z.pow_pos_nonneg; lia).
  destruct neg; nia.
Qed.

Lemma fdiv_fmax1 (c s : float) : fdiv c (fmax1 s) = Ok (fdiv_ieee c (fmax1 s)).
Proof. unfold fdiv. by rewrite fmax1_not_zero. Qed.

Lemma float_of_field_Raise v e : float_of_field v = Raise e -> exn_cls e = ValueError.
Proof.
  destruct v as [s|]; simpl; [|discriminate].
  unfold float_of_string. destruct (float_syntax s); [discriminate|].
  intros H. by inversion H.
Qed.

Lemma int_of_float_Raise f e :
  int_of_float f = Raise e -> exn_cls e = ValueError \/ exn_cls e = OverflowError.
Proof.
  destruct f as [|neg|neg m x]; simpl.
  - intros H; inversion H; auto.
  - intros H; inversion H; auto.
  - destruct (ratio_of m x). discriminate.
Qed.

Lemma int_of_field_Raise v e :
  int_of_field v = Raise e -> exn_cls e = ValueError \/ exn_cls e = OverflowError.
Proof.
  unfold int_of_field. destruct (float_of_field v) as [f|e'] eqn:Hf; simpl.
  - apply int_of_float_Raise.
  - intros H. inversion H; subst. left. by eapply float_of_field_Raise.
Qed.

Lemma percent_of_field_Raise v e : percent_of_field v = Raise e -> exn_cls e = ValueError.
Proof.
  unfold percent_of_field. destruct (float_of_field v) as [f|e'] eqn:Hf; simpl.
  - discriminate.
  - intros H. inversion H; subst. by eapply float_of_field_Raise.
Qed.

Lemma conversion_rate_Raise (v : option string) (s : float) (e : exn) :
  (c ← float_of_field v; q ← fdiv c (fmax1 s); Ok (round1 (fmul q f_hundred))) = Raise e ->
  exn_cls e = ValueError.
Proof.
  destruct (float_of_field v) as [c|e'] eqn:Hc; cbn [mbind outcome_bind].
  - rewrite fdiv_fmax1. discriminate.
  - intros H. inversion H; subst. by eapply float_of_field_Raise.
Qed.

Ltac raise_class :=
  first [ left; eapply float_of_field_Raise; eassumption
        | eapply int_of_field_Raise; eassumption
        | eapply int_of_float_Raise; eassumption
        | left; eapply percent_of_field_Raise; eassumption
        | left; eapply conversion_rate_Raise; eassumption ].

Ltac raise_step :=
  match goal with
  | |- (let _ := _ in _) = Raise _ -> _ => cbv zeta
  | |- mbind _ ?m = Raise _ -> _ =>
      let E := fresh "E" in
      let HR := fresh "HR" in
      destruct m eqn:E; cbn [mbind outcome_bind];
      [| intros HR; inversion HR; subst; raise_class ]
  end.

(** C6. For a first row whose fields convert, the overview holds
    [conversionRate = round(conversions / max(sessions, 1) * 100, 1)], the
    two values being the raw fields read as floats; building the overview
    raises nothing but the errors of the conversions, so never a division
    by zero; on sessions 0 and conversions 5 the rate is 500.0. *)
Theorem overview_conversion_rate :
  (forall days start_date end_date (data : item) (rest : list item),
     overview_row_ok data ->
     exists ov,
       build_overview days start_date end_date (data :: rest) = Ok ov /\
       ov !! "conversionRate" =
         Some (JFloat (conversion_rate (field_float "conversions" data)
                                       (field_float "sessions" data)))) /\
  (forall days start_date end_date (overview_raw : list item) e,
     build_overview days start_date end_date overview_raw = Raise e ->
     exn_cls e = ValueError \/ exn_cls e = OverflowError) /\
  (field_float "sessions" sample_overview_row = whole 0 /\
   field_float "conversions" sample_overview_row = whole 5 /\
   (ov ← build_overview 30 "2024-02-05" "2024-03-05" [sample_overview_row];
    Ok (ov !! "conversionRate")) = Ok (Some (JFloat (whole 500)))).
Proof.
  split; [|split].
  - intros days start_date end_date data rest
      (Hs & Htu & Hnu & Hes & Hpv & Hbr & Her & Hc).
    unfold build_overview, overview_of_row, percent_of_field.
    rewrite (parses_field_float _ _ (converts_parses _ _ Hs)).
    rewrite (parses_field_float _ _ (converts_parses _ _ Hc)).
    rewrite (parses_field_float _ _ Hbr), (parses_field_float _ _ Her).
    rewrite (converts_field_int _ _ Htu), (converts_field_int _ _ Hnu),
      (converts_field_int _ _ Hes), (converts_field_int _ _ Hpv),
      (converts_field_int _ _ Hc).
    cbn [mbind outcome_bind].
    rewrite (converts_int_of_float _ _ Hs). cbn [mbind outcome_bind].
    rewrite fdiv_fmax1. cbn [mbind outcome_bind].
    eexists. split; [reflexivity|]. apply lookup_insert_eq.
  - intros days start_date end_date overview_raw e.
    unfold build_overview. destruct overview_raw as [|data rest]; [discriminate|].
    unfold overview_of_row.
    repeat raise_step. discriminate.
  - repeat split; vm_compute; reflexivity.
Qed.

Lemma sample_overview_row_ok : overview_row_ok sample_overview_row.
Proof.
  unfold overview_row_ok, converts, parses.
  repeat split; eexists; vm_compute; reflexivity.
Defined.

Lemma overview_conversion_rate_witness :
  exists ov,
    build_overview 30 "2024-02-05" "2024-03-05" [sample_overview_row] = Ok ov /\
    ov !! "conversionRate" =
      Some (JFloat (conversion_rate (field_float "conversions" sample_overview_row)
                                    (field_float "sessions" sample_overview_row))).
Proof.
  exact (proj1 overview_conversion_rate 30 "2024-02-05" "2024-03-05"
           sample_overview_row [] sample_overview_row_ok).
Defined.

(** ** The handler *)

Lemma get_ga4_data_Ok cfg (c : client) start_date end_date metrics dimensions response log :
  c (request_of cfg start_date end_date metrics dimensions) = Ok response ->
  well_formed response dimensions ->
  get_ga4_data cfg c start_date end_date metrics dimensions log
  = (Ok (records response dimensions),
     log ++ [request_of cfg start_date end_date metrics dimensions]).
Proof.
  intros Hc Hwf. unfold get_ga4_data, run_report, mbind, io_bind, lift, request_of in *.
  rewrite Hc. f_equal. apply omapM_fmap. intros row Hrow. apply row_item_spec.
  unfold well_formed in Hwf. rewrite Forall_forall in Hwf. by apply Hwf.
Qed.

Lemma get_ga4_data_Raise cfg (c : client) start_date end_date metrics dimensions e log :
  c (request_of cfg start_date end_date metrics dimensions) = Raise e ->
  get_ga4_data cfg c start_date end_date metrics dimensions log
  = (Raise e, log ++ [request_of cfg start_date end_date metrics dimensions]).
Proof.
  intros Hc. unfold get_ga4_data, run_report, mbind, io_bind, lift, request_of in *.
  by rewrite Hc.
Qed.

Lemma io_bind_Ok {A B} (m : io A) (k : A -> io B) (a : A) (log log' : list report_request) :
  m log = (Ok a, log') -> (x ← m; k x) log = k a log'.
Proof. intros H. unfold mbind, io_bind. by rewrite H. Qed.

Lemma io_bind_Raise {A B} (m : io A) (k : A -> io B) (e : exn)
    (log log' : list report_request) :
  m log = (Raise e, log') -> (x ← m; k x) log = (Raise e, log').
Proof. intros H. unfold mbind, io_bind. by rewrite H. Qed.

Lemma lift_Ok {A} (m : outcome A) (a : A) (log : list report_request) :
  m = Ok a -> lift m log = (Ok a, log).
Proof. by intros ->. Qed.

Lemma lift_Raise {A} (m : outcome A) (e : exn) (log : list report_request) :
  m = Raise e -> @lift A m log = (Raise e, log).
Proof. by intros ->. Qed.

(** The clauses of the handler on the outcome of its body. *)
Lemma get_analytics_Ok cfg env days payload log :
  analytics_body cfg env days [] = (Ok payload, log) ->
  get_analytics cfg env days = (Http200 payload, log).
Proof. intros H. unfold get_analytics. by rewrite H. Qed.

Lemma get_analytics_ValueError cfg env days e log :
  analytics_body cfg env days [] = (Raise e, log) ->
  is_ValueError e = true ->
  get_analytics cfg env days
  = (HttpException 400 ("Invalid days value: " +:+ exn_msg e), log).
Proof. intros H He. unfold get_analytics. by rewrite H, He. Qed.

Lemma get_analytics_other_exception cfg env days e log :
  analytics_body cfg env days [] = (Raise e, log) ->
  is_ValueError e = false ->
  get_analytics cfg env days
  = (HttpException 500 ("Analytics error: " +:+ exn_msg e), log).
Proof. intros H He. unfold get_analytics. by rewrite H, He. Qed.

Lemma window_Ok env days sd ed :
  window env days = Ok (sd, ed) ->
  exists delta start_date_obj,
    timedelta (days - 1) = Ok delta /\ date_sub (today env) delta = Ok start_date_obj /\
    sd = strftime_Y_m_d start_date_obj /\ ed = strftime_Y_m_d (today env).
Proof.
  unfold window. intros H.
  apply obind_Ok in H as (delta & Hd & H).
  apply obind_Ok in H as (start & Hs & H).
  inversion H. eauto 10.
Qed.

Ltac io_step :=
  cbv beta iota;
  match goal with
  | H : ?m = Ok ?a |- context [lift ?m ?log] =>
      rewrite (lift_Ok m a log H)
  | |- context [lift (Ok ?a) ?log] =>
      change (lift (Ok a) log) with (Ok a, log)
  | H : ?c ?rq = Ok ?r |- context [get_ga4_data ?cfg ?c ?sd ?ed ?ms ?ds ?log] =>
      rewrite (get_ga4_data_Ok cfg c sd ed ms ds r log H) by assumption
  end.

(** The payload of a successful run, from the outcomes of its parts. *)
Lemma analytics_body_Ok cfg env days (c : client) sd ed
    r_overview r_traffic r_pages r_devices r_sources ov t p d s :
  new_client env = Ok c ->
  window env days = Ok (sd, ed) ->
  c (overview_request cfg sd ed) = Ok r_overview -> well_formed r_overview None ->
  build_overview days sd ed (records r_overview None) = Ok ov ->
  c (traffic_request cfg sd ed) = Ok r_traffic -> well_formed r_traffic (Some ["date"]) ->
  traffic_over_time (records r_traffic (Some ["date"])) = Ok t ->
  c (pages_request cfg sd ed) = Ok r_pages -> well_formed r_pages (Some ["pagePath"]) ->
  top_pages (take 10 (records r_pages (Some ["pagePath"]))) = Ok p ->
  c (devices_request cfg sd ed) = Ok r_devices ->
  well_formed r_devices (Some ["deviceCategory"]) ->
  device_category (records r_devices (Some ["deviceCategory"])) = Ok d ->
  c (sources_request cfg sd ed) = Ok r_sources ->
  well_formed r_sources (Some ["sessionDefaultChannelGroup"]) ->
  traffic_sources (take 8 (records r_sources (Some ["sessionDefaultChannelGroup"]))) = Ok s ->
  analytics_body cfg env days []
  = (Ok (AnalyticsPayload "success" days sd ed (AnalyticsData ov t p d s)
           (now_isoformat env)),
     [overview_request cfg sd ed; traffic_request cfg sd ed; pages_request cfg sd ed;
      devices_request cfg sd ed; sources_request cfg sd ed]).
Proof.
  intros Hc Hw Ho Hwo Hov Ht Hwt Htr Hp Hwp Hpg Hd Hwd Hdv Hs Hws Hsr.
  apply window_Ok in Hw as (delta & start & Hdelta & Hstart & -> & ->).
  unfold overview_request, traffic_request, pages_request, devices_request,
    sources_request in *.
  unfold analytics_body, mbind, io_bind.
  repeat io_step. reflexivity.
Qed.

(** C10. When the overview report has no row and the four other reports
    are fetched and aggregated, the handler answers 200 with an empty
    [overview] dictionary, in which no key is present, next to the four
    other aggregates. *)
Theorem empty_overview_response :
  forall cfg env days (c : client) sd ed
         r_overview r_traffic r_pages r_devices r_sources t p d s,
    new_client env = Ok c ->
    window env days = Ok (sd, ed) ->
    c (overview_request cfg sd ed) = Ok r_overview ->
    rows r_overview = [] ->
    c (traffic_request cfg sd ed) = Ok r_traffic -> well_formed r_traffic (Some ["date"]) ->
    traffic_over_time (records r_traffic (Some ["date"])) = Ok t ->
    c (pages_request cfg sd ed) = Ok r_pages -> well_formed r_pages (Some ["pagePath"]) ->
    top_pages (take 10 (records r_pages (Some ["pagePath"]))) = Ok p ->
    c (devices_request cfg sd ed) = Ok r_devices ->
    well_formed r_devices (Some ["deviceCategory"]) ->
    device_category (records r_devices (Some ["deviceCategory"])) = Ok d ->
    c (sources_request cfg sd ed) = Ok r_sources ->
    well_formed r_sources (Some ["sessionDefaultChannelGroup"]) ->
    traffic_sources (take 8 (records r_sources (Some ["sessionDefaultChannelGroup"]))) = Ok s ->
    exists payload,
      fst (get_analytics cfg env days) = Http200 payload /\
      status_code_of (fst (get_analytics cfg env days)) = 200 /\
      overview (data payload) = ∅ /\
      (forall key, overview (data payload) !! key = None) /\
      trafficOverTime (data payload) = t /\
      topPages (data payload) = p /\
      deviceCategory (data payload) = d /\
      trafficSources (data payload) = s.
Proof.
  intros cfg env days c sd ed r_overview r_traffic r_pages r_devices r_sources t p d s
    Hc Hw Ho Hrows Ht Hwt Htr Hp Hwp Hpg Hd Hwd Hdv Hs Hws Hsr.
  assert (Hwo : well_formed r_overview None) by (unfold well_formed; rewrite Hrows; constructor).
  assert (Hov : build_overview days sd ed (records r_overview None) = Ok ∅).
  { unfold records. by rewrite Hrows. }
  pose proof (analytics_body_Ok cfg env days c sd ed r_overview r_traffic r_pages
                r_devices r_sources ∅ t p d s
                Hc Hw Ho Hwo Hov Ht Hwt Htr Hp Hwp Hpg Hd Hwd Hdv Hs Hws Hsr) as Hbody.
  rewrite (get_analytics_Ok _ _ _ _ _ Hbody). cbn [fst status_code_of].
  eexists. split; [reflexivity|]. cbn [data overview trafficOverTime topPages
    deviceCategory trafficSources].
  repeat split.
Qed.

Lemma empty_overview_response_witness :
  exists payload,
    fst (get_analytics sample_config quiet_environment 30) = Http200 payload /\
    overview (data payload) = ∅.
Proof.
  destruct (empty_overview_response sample_config quiet_environment 30
              (fun _ => Ok empty_response) "2024-02-05" "2024-03-05"
              empty_response empty_response empty_response empty_response empty_response
              (TrafficSeries [] [] [] [] []) []
              (DeviceBreakdown device_labels [whole 0; whole 0; whole 0] device_colors)
              (SourceSeries [] [] []))
    as (payload & H200 & _ & Hov & _);
    try reflexivity; try (by constructor).
  exists payload. split; assumption.
Defined.

(** ** The exception clauses *)

(** Whatever the body raises, the handler answers with an error and no
    payload: 400 for a [ValueError], 500 for anything else, the message of
    the exception after a fixed prefix. *)
Lemma get_analytics_exception cfg env days e log :
  analytics_body cfg env days [] = (Raise e, log) ->
  fst (get_analytics cfg env days) =
    if is_ValueError e
    then HttpException 400 ("Invalid days value: " +:+ exn_msg e)
    else HttpException 500 ("Analytics error: " +:+ exn_msg e).
Proof.
  intros H. unfold get_analytics. rewrite H. by destruct (is_ValueError e).
Qed.

Example backend_failure_is_500 :
  fst (get_analytics sample_config failing_environment 30)
  = HttpException 500 "Analytics error: 403 permission denied".
Proof. vm_compute. reflexivity. Qed.

(** C1, on the code.  A metric value that is no number makes [float] raise
    a [ValueError] while the overview is aggregated; the first clause of
    the handler catches it, and the answer is 400 with the days message
    rather than 500 with the analytics message. *)
Theorem malformed_metric_answer :
  get_analytics sample_config malformed_environment 30
  = (HttpException 400
       "Invalid days value: could not convert string to float: 'abc'",
     [overview_request sample_config "2024-02-05" "2024-03-05"]) /\
  status_code_of (fst (get_analytics sample_config malformed_environment 30)) <> 500.
Proof. split; [vm_compute; reflexivity|vm_compute; discriminate]. Qed.

(** ** The endpoint *)

Lemma validate_days_rejected (q : query_value) :
  days_rejected q <-> validate_days q = None.
Proof.
  destruct q as [|n|raw]; simpl.
  - split; [tauto|discriminate].
  - destruct (1 <=? n) eqn:H1; destruct (n <=? 365) eqn:H2; simpl;
      rewrite ?Z.leb_le, ?Z.leb_gt in *; split; try discriminate; try lia; auto.
  - tauto.
Qed.

Lemma validate_days_accepted (q : query_value) (days : Z) :
  validate_days q = Some days -> 1 <= days <= 365.
Proof.
  destruct q as [|n|raw]; simpl.
  - intros H; inversion H; lia.
  - destruct (1 <=? n) eqn:H1; destruct (n <=? 365) eqn:H2; simpl; try discriminate.
    intros H; inversion H; subst. rewrite Z.leb_le in *. lia.
  - discriminate.
Qed.

(** The reply of a failed check is never a payload. *)
Lemma verify_admin_reply cfg username password p :
  verify_admin cfg username password <> inl (Http200 p).
Proof.
  unfold verify_admin.
  destruct (compare_digest username (ADMIN_USERNAME cfg)) as [bu|eu];
    cbn [mbind outcome_bind]; [|discriminate].
  destruct (compare_digest password (ADMIN_PASSWORD cfg)) as [bp|ep];
    cbn [mbind outcome_bind]; [|discriminate].
  destruct (bu && bp); discriminate.
Qed.

(** C3, as stated, fails: with valid credentials, [days=0] is answered
    with 422, not with 400. *)
Lemma days_zero_is_not_400 :
  status_code_of
    (fst (analytics_endpoint sample_config quiet_environment
            (HttpRequest (Some ("admin", "secret")) (QInt 0)))) <> 400.
Proof. vm_compute. discriminate. Qed.

(** C3, amended.  A value of [days] outside the integers from 1 to 365
    (zero, 366, a negative number, text that is no integer) never reaches
    the handler: no report is requested from the backend, and a request
    with valid credentials is answered with the validation error of the
    framework, status 422. *)
Theorem rejected_days_answer :
  forall cfg env (req : http_request),
    days_rejected (days_param req) ->
    snd (analytics_endpoint cfg env req) = [] /\
    (forall p, fst (analytics_endpoint cfg env req) <> Http200 p) /\
    (forall username password admin,
       credentials req = Some (username, password) ->
       verify_admin cfg username password = inr admin ->
       fst (analytics_endpoint cfg env req) = RequestValidationError /\
       status_code_of (fst (analytics_endpoint cfg env req)) = 422).
Proof.
  intros cfg env req Hrej. apply validate_days_rejected in Hrej.
  unfold analytics_endpoint. rewrite Hrej.
  split; [|split].
  - destruct (credentials req) as [[u pw]|]; [|reflexivity].
    by destruct (verify_admin cfg u pw).
  - intros p. destruct (credentials req) as [[u pw]|]; [|discriminate].
    destruct (verify_admin cfg u pw) as [reply|admin] eqn:Hv; [|discriminate].
    cbn [fst]. intros ->. by apply verify_admin_reply in Hv.
  - intros username password admin Hcred Hv. by rewrite Hcred, Hv.
Qed.

Lemma rejected_days_answer_witness :
  snd (analytics_endpoint sample_config quiet_environment
         (HttpRequest (Some ("admin", "secret")) (QInt 366))) = [] /\
  fst (analytics_endpoint sample_config quiet_environment
         (HttpRequest (Some ("admin", "secret")) (QInt 366))) = RequestValidationError.
Proof.
  destruct (rejected_days_answer sample_config quiet_environment
              (HttpRequest (Some ("admin", "secret")) (QInt 366)))
    as (Hlog & _ & Hauth).
  - simpl. lia.
  - split; [exact Hlog|].
    exact (proj1 (Hauth "admin" "secret" "admin" eq_refl eq_refl)).
Defined.

(** ** Checking a property on a range of integers *)

Lemma forall_range_spec (p : positive) :
  forall (lo : Z) (P : Z -> bool),
    forall_range p lo P = true -> forall k, lo <= k < lo + Z.pos p -> P k = true.
Proof.
  induction p as [p IH|p IH|]; intros lo P H k Hk; simpl in H.
  - apply andb_true_iff in H as [H H3]. apply andb_true_iff in H as [H1 H2].
    destruct (Z.eq_dec k lo) as [->|Hne]; [exact H1|].
    destruct (Z_lt_le_dec k (lo + 1 + Z.pos p)).
    + apply (IH _ _ H2). lia.
    + apply (IH _ _ H3). lia.
  - apply andb_true_iff in H as [H1 H2].
    destruct (Z_lt_le_dec k (lo + Z.pos p)).
    + apply (IH _ _ H1). lia.
    + apply (IH _ _ H2). lia.
  - assert (k = lo) as -> by lia. exact H.
Qed.

Lemma format_02d_two_digits (n : Z) : 0 <= n < 100 -> format_02d n = two_digits n.
Proof.
  intros Hn.
  assert (H : forall_range 100 0 (fun k => String.eqb (format_02d k) (two_digits k)) = true)
    by (vm_compute; reflexivity).
  apply String.eqb_eq. apply (forall_range_spec _ _ _ H). lia.
Qed.

(** ** [format_duration] *)

Lemma format_duration_parsed (s : string) (f : float) :
  float_of_string s = Ok f ->
  format_duration s =
    match int_of_float f with Ok t => duration_of t | Raise _ => "0:00" end.
Proof.
  intros Hf. unfold format_duration. rewrite Hf. cbn [mbind outcome_bind].
  destruct (int_of_float f) as [t|e]; reflexivity.
Qed.

(** C4, as stated, fails: on [-1.5] the code truncates to -1 and prints
    [-1:59], while the floor, -2, gives [-1:58]. *)
Lemma format_duration_is_not_by_floor :
  ~ (forall s f, float_of_string s = Ok f -> is_finite f = true ->
       format_duration s = duration_by_floor f).
Proof.
  intros H.
  specialize (H "-1.5" (FFin true 6755399441055744 (-52))).
  assert (H1 : format_duration "-1.5" = "-1:59") by (vm_compute; reflexivity).
  assert (H2 : duration_by_floor (FFin true 6755399441055744 (-52)) = "-1:58")
    by (vm_compute; reflexivity).
  rewrite H1, H2 in H.
  assert (H' : "-1:59" = "-1:58") by (apply H; vm_compute; reflexivity).
  discriminate H'.
Qed.

(** C4, amended.  For a string that [float] reads as a finite number,
    [format_duration] returns [M:SS] for the integer [t = int(float(s))],
    the number truncated toward zero: [M] is [t div 60] written plainly and
    [SS] is [t mod 60], between 0 and 59, written with two digits; [t] is
    the floor of the number whenever its sign is not negative.  For a
    string that reads as an infinity or a NaN, and for a string that
    [float] refuses, the result is [0:00].  The function always returns. *)
Theorem format_duration_text :
  (forall s f,
     float_of_string s = Ok f -> is_finite f = true ->
     exists t,
       int_of_float f = Ok t /\
       format_duration s = str_of_Z (t / 60) +:+ ":" +:+ two_digits (t mod 60) /\
       0 <= t mod 60 < 60 /\
       (forall m e, f = FFin false m e -> t = float_floor f)) /\
  (forall s f, float_of_string s = Ok f -> is_finite f = false ->
     format_duration s = "0:00") /\
  (forall s e, float_of_string s = Raise e -> format_duration s = "0:00") /\
  (format_duration "125" = "2:05" /\ format_duration "0" = "0:00" /\
   format_duration "abc" = "0:00").
Proof.
  split; [|split; [|split]].
  - intros s f Hf Hfin. rewrite (format_duration_parsed _ _ Hf).
    destruct f as [| |neg m e]; try discriminate.
    unfold int_of_float, float_floor. destruct (ratio_of m e) as [a b].
    eexists. split; [reflexivity|].
    pose proof (Z.mod_pos_bound (if neg then - (a / b) else a / b) 60 ltac:(lia)) as Hmod.
    split; [|split; [exact Hmod|]].
    + unfold duration_of. rewrite format_02d_two_digits by lia. reflexivity.
    + intros m' e' Heq. inversion Heq; subst. reflexivity.
  - intros s f Hf Hfin. rewrite (format_duration_parsed _ _ Hf).
    destruct f; try discriminate; reflexivity.
  - intros s e He. unfold format_duration. rewrite He. reflexivity.
  - repeat split; vm_compute; reflexivity.
Qed.

Lemma format_duration_text_witness :
  exists t,
    int_of_float (FFin false 8796093022208000 (-46)) = Ok t /\
    format_duration "125" = str_of_Z (t / 60) +:+ ":" +:+ two_digits (t mod 60).
Proof.
  destruct (proj1 format_duration_text "125" (FFin false 8796093022208000 (-46)))
    as (t & Ht & Hs & _).
  - vm_compute. reflexivity.
  - reflexivity.
  - exists t. split; assumption.
Defined.

(** ** [format_date_label] *)

Lemma is_digit_range (c : ascii) : is_digit c = true -> 0 <= digit_val c <= 9.
Proof.
  unfold is_digit, digit_val. intros H. apply andb_true_iff in H as [H1 H2].
  apply Z.leb_le in H1, H2. lia.
Qed.

Lemma is_digit_char (c : ascii) : is_digit c = true -> digit_char (digit_val c) = c.
Proof.
  intros H. pose proof (is_digit_range c H) as Hr.
  unfold digit_char, digit_val, code in *.
  replace (Z.to_nat (48 + (Z.of_nat (nat_of_ascii c) - 48))) with (nat_of_ascii c) by lia.
  apply ascii_nat_embedding.
Qed.

Lemma is_digit_not_space (c : ascii) : is_digit c = true -> is_space c = false.
Proof.
  unfold is_digit, is_space. intros H. apply andb_true_iff in H as [H1 H2].
  apply Z.leb_le in H1, H2.
  apply orb_false_iff. split.
  - apply Z.eqb_neq. lia.
  - apply andb_false_iff. right. apply Z.leb_gt. lia.
Qed.

Lemma two_digits_chars (a b : ascii) :
  is_digit a = true -> is_digit b = true ->
  two_digits (10 * digit_val a + digit_val b) = String a (String b EmptyString).
Proof.
  intros Ha Hb.
  pose proof (is_digit_range a Ha). pose proof (is_digit_range b Hb).
  unfold two_digits.
  replace ((10 * digit_val a + digit_val b) / 10) with (digit_val a)
    by (apply (Z.div_unique _ 10 _ (digit_val b)); lia).
  replace ((10 * digit_val a + digit_val b) mod 10) with (digit_val b)
    by (apply (Z.mod_unique _ 10 (digit_val a)); lia).
  by rewrite !is_digit_char.
Qed.

Lemma match_md_two_digits (m d : Z) :
  1 <= m <= 12 -> 1 <= d <= 31 ->
  match_md (two_digits m +:+ two_digits d) = Some (two_digits m, two_digits d, "").
Proof.
  intros Hm Hd.
  assert (H : forall_range 12 1 (fun m => forall_range 31 1 (fun d => md_check m d)) = true)
    by (vm_compute; reflexivity).
  pose proof (forall_range_spec _ _ _ H m ltac:(lia)) as H1. cbv beta in H1.
  pose proof (forall_range_spec _ _ _ H1 d ltac:(lia)) as H2. cbv beta in H2.
  unfold md_check in H2.
  destruct (match_md (two_digits m +:+ two_digits d)) as [[[gm gd] r]|]; [|discriminate].
  apply andb_true_iff in H2 as [H2 Hr]. apply andb_true_iff in H2 as [Hgm Hgd].
  apply String.eqb_eq in Hr, Hgm, Hgd. by subst.
Qed.

Lemma int_of_group_two_digits (n : Z) : 0 <= n < 100 -> int_of_group (two_digits n) = n.
Proof.
  intros Hn.
  assert (H : forall_range 100 0 (fun k => int_of_group (two_digits k) =? k) = true)
    by (vm_compute; reflexivity).
  apply Z.eqb_eq. apply (forall_range_spec _ _ _ H). lia.
Qed.

Lemma int_of_group_four (c1 c2 c3 c4 : ascii) :
  is_digit c1 = true -> is_digit c2 = true -> is_digit c3 = true -> is_digit c4 = true ->
  int_of_group (String c1 (String c2 (String c3 (String c4 EmptyString))))
  = 1000 * digit_val c1 + 100 * digit_val c2 + 10 * digit_val c3 + digit_val c4.
Proof.
  intros H1 H2 H3 H4. unfold int_of_group. cbn [lstrip].
  rewrite (is_digit_not_space _ H1). cbn [read_digits].
  rewrite H1, H2, H3, H4. cbn [fst]. lia.
Qed.

(** A strict date is a date for the runtime's parser too. *)
Lemma parse_yyyymmdd_strptime (s : string) (d : date) :
  parse_yyyymmdd s = Some d -> strptime_Ymd s = Ok d.
Proof.
  unfold parse_yyyymmdd.
  destruct s as [|c1 [|c2 [|c3 [|c4 [|c5 [|c6 [|c7 [|c8 [|c9 s]]]]]]]]]; try discriminate.
  destruct (is_digit c1) eqn:H1; [|discriminate].
  destruct (is_digit c2) eqn:H2; [|discriminate].
  destruct (is_digit c3) eqn:H3; [|discriminate].
  destruct (is_digit c4) eqn:H4; [|discriminate].
  destruct (is_digit c5) eqn:H5; [|discriminate].
  destruct (is_digit c6) eqn:H6; [|discriminate].
  destruct (is_digit c7) eqn:H7; [|discriminate].
  destruct (is_digit c8) eqn:H8; [|discriminate].
  cbn [andb].
  set (y := 1000 * digit_val c1 + 100 * digit_val c2 + 10 * digit_val c3 + digit_val c4).
  set (m := 10 * digit_val c5 + digit_val c6).
  set (dd := 10 * digit_val c7 + digit_val c8).
  destruct (valid_date (Date y m dd)) eqn:Hv; [|discriminate].
  intros Hd. inversion Hd; subst d. clear Hd.
  unfold valid_date in Hv. cbn [year month day] in Hv.
  repeat (apply andb_true_iff in Hv as [Hv ?]).
  repeat match goal with H : (_ <=? _) = true |- _ => apply Z.leb_le in H end.
  assert (Hdim : days_in_month y m <= 31).
  { unfold days_in_month. destruct ((m =? 2) && is_leap y); [lia|].
    assert (Hm : m = 1 \/ m = 2 \/ m = 3 \/ m = 4 \/ m = 5 \/ m = 6 \/ m = 7 \/ m = 8 \/
                 m = 9 \/ m = 10 \/ m = 11 \/ m = 12) by lia.
    destruct Hm as [->|[->|[->|[->|[->|[->|[->|[->|[->|[->|[->| ->]]]]]]]]]]];
      vm_compute; discriminate. }
  unfold strptime_Ymd, match_Ymd, four_digits.
  rewrite H1, H2, H3, H4. cbn [andb mbind option_bind].
  change (String c5 (String c6 (String c7 (String c8 EmptyString)))) with
    (String c5 (String c6 EmptyString) +:+ String c7 (String c8 EmptyString)).
  rewrite <- (two_digits_chars c5 c6 H5 H6), <- (two_digits_chars c7 c8 H7 H8).
  fold m dd.
  rewrite (match_md_two_digits m dd) by lia.
  cbn [mbind option_bind String.eqb negb].
  rewrite int_of_group_four by assumption.
  rewrite !int_of_group_two_digits by lia.
  fold y. cbn [year month day].
  replace ((MINYEAR <=? y) && (y <=? MAXYEAR)) with true
    by (symmetry; apply andb_true_iff; split; apply Z.leb_le; assumption).
  replace ((1 <=? dd) && (dd <=? days_in_month y m)) with true
    by (symmetry; apply andb_true_iff; split; apply Z.leb_le; assumption).
  reflexivity.
Qed.

(** C5, as stated, fails: [2024305] has seven characters, so it is no
    eight-digit date, yet the runtime's parser reads it as 5 March 2024 and
    the label is returned instead of the input. *)
Lemma short_date_is_relabelled :
  parse_yyyymmdd "2024305" = None /\
  format_date_label "2024305" = "Mar 05" /\
  format_date_label "2024305" <> "2024305".
Proof.
  split; [reflexivity|]. split; [vm_compute; reflexivity|vm_compute; discriminate].
Qed.

(** C5, amended.  For a string of eight digits [YYYYMMDD] that names a date
    the result is the abbreviated month followed by the day on two digits,
    and so it is for every string the runtime's parser accepts (which also
    takes a month or a day written with one digit); for every string that
    parser refuses, the result is the input itself.  The function always
    returns. *)
Theorem format_date_label_text :
  (forall s d, parse_yyyymmdd s = Some d ->
     format_date_label s = month_abbr (month d) +:+ " " +:+ two_digits (day d)) /\
  (forall s d, strptime_Ymd s = Ok d ->
     format_date_label s = month_abbr (month d) +:+ " " +:+ format_02d (day d)) /\
  (forall s e, strptime_Ymd s = Raise e -> format_date_label s = s) /\
  (format_date_label "20240305" = "Mar 05" /\ format_date_label "notadate" = "notadate").
Proof.
  split; [|split; [|split]].
  - intros s d Hs. pose proof (parse_yyyymmdd_strptime s d Hs) as Hp.
    unfold format_date_label. rewrite Hp. cbn [mbind outcome_bind].
    unfold strftime_b_d. rewrite format_02d_two_digits; [reflexivity|].
    unfold parse_yyyymmdd in Hs.
    destruct s as [|c1 [|c2 [|c3 [|c4 [|c5 [|c6 [|c7 [|c8 [|c9 s]]]]]]]]]; try discriminate.
    destruct (is_digit c1 && is_digit c2 && is_digit c3 && is_digit c4 &&
              is_digit c5 && is_digit c6 && is_digit c7 && is_digit c8) eqn:Hd;
      [|discriminate].
    repeat (apply andb_true_iff in Hd as [Hd ?]).
    cbv zeta in Hs.
    destruct (valid_date _) in Hs; [|discriminate].
    inversion Hs; subst d. cbn [day].
    pose proof (is_digit_range c7 ltac:(assumption)).
    pose proof (is_digit_range c8 ltac:(assumption)). lia.
  - intros s d Hs. unfold format_date_label. by rewrite Hs.
  - intros s e Hs. unfold format_date_label. by rewrite Hs.
  - split; vm_compute; reflexivity.
Qed.

Lemma format_date_label_text_witness :
  format_date_label "20241231" = month_abbr 12 +:+ " " +:+ two_digits 31.
Proof.
  exact (proj1 format_date_label_text "20241231" (Date 2024 12 31) eq_refl).
Defined.

(** ** The calendar *)

Lemma month_day_spec (leap : bool) (r : Z) :
  0 <= r < 365 + (if leap then 1 else 0) ->
  month_day_check leap r = true.
Proof.
  intros Hr. destruct leap.
  - assert (H : forall_range 366 0 (month_day_check true) = true) by (vm_compute; reflexivity).
    apply (forall_range_spec _ _ _ H). lia.
  - assert (H : forall_range 365 0 (month_day_check false) = true) by (vm_compute; reflexivity).
    apply (forall_range_spec _ _ _ H). lia.
Qed.

Lemma ord2ymd_cycles (ordinal : Z) :
  ord2ymd ordinal =
  let '(n400, n100, n4, n1, r) := cycles ordinal in
  let y := n400 * 400 + 1 + n100 * 100 + n4 * 4 + n1 in
  if (n1 =? 4) || (n100 =? 4) then Date (y - 1) 12 31
  else
    let '(m, d) := month_day r ((n1 =? 3) && (negb (n4 =? 24) || (n100 =? 3))) in
    Date y m d.
Proof.
  unfold ord2ymd, cycles, month_day. cbv zeta.
  destruct ((_ =? 4) || (_ =? 4)); [reflexivity|].
  match goal with |- context [if ?b then _ else _] => destruct b end; reflexivity.
Qed.

Lemma cycles_spec (ordinal : Z) :
  1 <= ordinal ->
  let '(n400, n100, n4, n1, r) := cycles ordinal in
  ordinal - 1 = n400 * 146097 + n100 * 36524 + n4 * 1461 + n1 * 365 + r /\
  0 <= n400 /\ 0 <= n100 <= 4 /\ 0 <= n4 <= 24 /\ 0 <= n1 <= 4 /\ 0 <= r < 365 /\
  (n100 = 4 -> n4 = 0 /\ n1 = 0 /\ r = 0) /\
  (n1 = 4 -> r = 0 /\ n4 <= 23).
Proof.
  intros H. unfold cycles. cbv zeta. repeat split; Z.div_mod_to_equations; lia.
Qed.

Lemma is_leap_cycles (n400 n100 n4 n1 : Z) :
  0 <= n100 <= 3 -> 0 <= n4 <= 24 -> 0 <= n1 <= 3 ->
  is_leap (n400 * 400 + 1 + n100 * 100 + n4 * 4 + n1)
  = (n1 =? 3) && (negb (n4 =? 24) || (n100 =? 3)).
Proof.
  intros H100 H4 H1. unfold is_leap.
  set (y := n400 * 400 + 1 + n100 * 100 + n4 * 4 + n1).
  destruct (Z.eqb_spec (y mod 4) 0), (Z.eqb_spec (y mod 100) 0),
    (Z.eqb_spec (y mod 400) 0), (Z.eqb_spec n1 3), (Z.eqb_spec n4 24),
    (Z.eqb_spec n100 3); simpl; try reflexivity; exfalso; subst y;
    Z.div_mod_to_equations; lia.
Qed.

Lemma days_before_year_cycles (n400 n100 n4 n1 : Z) :
  0 <= n100 <= 3 -> 0 <= n4 <= 24 -> 0 <= n1 <= 3 ->
  days_before_year (n400 * 400 + 1 + n100 * 100 + n4 * 4 + n1)
  = n400 * 146097 + n100 * 36524 + n4 * 1461 + n1 * 365.
Proof.
  intros H100 H4 H1. unfold days_before_year. cbv zeta.
  Z.div_mod_to_equations. lia.
Qed.

(** Every ordinal of the calendar is the ordinal of the date [ord2ymd]
    gives for it, and that date is a date of the calendar. *)
Lemma ord2ymd_toordinal (ordinal : Z) :
  1 <= ordinal <= MAXORDINAL ->
  valid_date (ord2ymd ordinal) = true /\
  toordinal (ord2ymd ordinal) = ordinal /\
  (364878 <= ordinal -> 1000 <= year (ord2ymd ordinal)).
Proof.
  intros Hn. unfold MAXORDINAL in Hn.
  rewrite ord2ymd_cycles.
  pose proof (cycles_spec ordinal ltac:(lia)) as Hc.
  destruct (cycles ordinal) as [[[[n400 n100] n4] n1] r].
  destruct Hc as (Hsum & H400 & H100 & H4 & H1 & Hr & Hc100 & Hc1).
  cbv zeta.
  destruct (Z.eqb_spec n1 4) as [E1|E1]; [|destruct (Z.eqb_spec n100 4) as [E100|E100]];
    cbn [orb].
  - (* the last day of a leap year that ends a four-year cycle *)
    destruct (Hc1 E1) as [Hr0 H4']. subst n1 r.
    assert (H100' : n100 <= 3) by (destruct (Z.eq_dec n100 4) as [E|E]; [apply Hc100 in E|]; lia).
    set (y := n400 * 400 + 1 + n100 * 100 + n4 * 4 + 4 - 1).
    assert (Hleap : is_leap y = true).
    { unfold is_leap.
      destruct (Z.eqb_spec (y mod 4) 0), (Z.eqb_spec (y mod 100) 0),
        (Z.eqb_spec (y mod 400) 0); simpl; try reflexivity; exfalso; subst y;
        Z.div_mod_to_equations; lia. }
    assert (Hdby : days_before_year y = ordinal - 366).
    { unfold days_before_year, y. cbv zeta. Z.div_mod_to_equations. lia. }
    unfold valid_date, toordinal, ymd2ord, days_in_month, days_before_month, MINYEAR, MAXYEAR.
    cbn [year month day]. rewrite Hleap, Hdby.
    change (table DAYS_IN_MONTH 12) with 31. change (table DAYS_BEFORE_MONTH 12) with 334.
    cbn [Z.eqb andb Z.ltb Z.compare Pos.compare Pos.compare_cont Z.leb].
    split; [|split; [lia|intros; subst y; lia]].
    repeat (apply andb_true_iff; split); try reflexivity; apply Z.leb_le; subst y; lia.
  - (* the last day of a four-hundred-year cycle *)
    destruct (Hc100 E100) as (-> & -> & ->). subst n100.
    set (y := n400 * 400 + 1 + 4 * 100 + 0 * 4 + 0 - 1).
    assert (Hleap : is_leap y = true).
    { unfold is_leap.
      destruct (Z.eqb_spec (y mod 4) 0), (Z.eqb_spec (y mod 100) 0),
        (Z.eqb_spec (y mod 400) 0); simpl; try reflexivity; exfalso; subst y;
        Z.div_mod_to_equations; lia. }
    assert (Hdby : days_before_year y = ordinal - 366).
    { unfold days_before_year, y. cbv zeta. Z.div_mod_to_equations. lia. }
    unfold valid_date, toordinal, ymd2ord, days_in_month, days_before_month, MINYEAR, MAXYEAR.
    cbn [year month day]. rewrite Hleap, Hdby.
    change (table DAYS_IN_MONTH 12) with 31. change (table DAYS_BEFORE_MONTH 12) with 334.
    cbn [Z.eqb andb Z.ltb Z.compare Pos.compare Pos.compare_cont Z.leb].
    split; [|split; [lia|intros; subst y; lia]].
    repeat (apply andb_true_iff; split); try reflexivity; apply Z.leb_le; subst y; lia.
  - (* any other day *)
    assert (H100' : 0 <= n100 <= 3) by lia. assert (H1' : 0 <= n1 <= 3) by lia.
    rewrite <- (is_leap_cycles n400 n100 n4 n1 H100' H4 H1').
    pose proof (days_before_year_cycles n400 n100 n4 n1 H100' H4 H1') as Hdby.
    set (y := n400 * 400 + 1 + n100 * 100 + n4 * 4 + n1) in *.
    pose proof (month_day_spec (is_leap y) r ltac:(destruct (is_leap y); lia)) as Hmd.
    unfold month_day_check in Hmd.
    destruct (month_day r (is_leap y)) as [m d].
    repeat (apply andb_true_iff in Hmd as [Hmd ?]).
    repeat match goal with H : (_ <=? _) = true |- _ => apply Z.leb_le in H end.
    match goal with H : (_ =? _) = true |- _ => apply Z.eqb_eq in H; rename H into Hord end.
    unfold valid_date, toordinal, ymd2ord, days_in_month, days_before_month, MINYEAR, MAXYEAR.
    cbn [year month day]. rewrite Hdby.
    split; [|split; [lia|intros; subst y; lia]].
    repeat (apply andb_true_iff; split); apply Z.leb_le; try assumption; subst y; lia.
Qed.

Lemma year_bounds (y : Z) : 1 <= y <= 9999 -> year_check y = true.
Proof.
  intros Hy.
  assert (H : forall_range 9999 1 year_check = true) by (vm_compute; reflexivity).
  apply (forall_range_spec _ _ _ H). lia.
Qed.

Lemma month_bounds (leap : bool) (m d : Z) :
  1 <= m <= 12 ->
  1 <= d <= (if (m =? 2) && leap then 29 else table DAYS_IN_MONTH m) ->
  1 <= table DAYS_BEFORE_MONTH m + (if (2 <? m) && leap then 1 else 0) + d
    <= 365 + (if leap then 1 else 0).
Proof.
  intros Hm Hd.
  assert (Hc : m = 1 \/ m = 2 \/ m = 3 \/ m = 4 \/ m = 5 \/ m = 6 \/ m = 7 \/ m = 8 \/
               m = 9 \/ m = 10 \/ m = 11 \/ m = 12) by lia.
  unfold table, DAYS_IN_MONTH, DAYS_BEFORE_MONTH in *.
  destruct leap;
    destruct Hc as [->|[->|[->|[->|[->|[->|[->|[->|[->|[->|[->| ->]]]]]]]]]]];
    simpl in Hd; simpl; lia.
Qed.

(** The ordinal of a date of the calendar lies in the calendar, and past
    the year 1000 it lies far enough from its start. *)
Lemma toordinal_bounds (d : date) :
  valid_date d = true ->
  1 <= toordinal d <= MAXORDINAL /\ (1001 <= year d -> 365243 <= toordinal d).
Proof.
  unfold valid_date, MINYEAR, MAXYEAR. intros Hv.
  repeat (apply andb_true_iff in Hv as [Hv ?]).
  repeat match goal with H : (_ <=? _) = true |- _ => apply Z.leb_le in H end.
  pose proof (year_bounds (year d) ltac:(lia)) as Hy. unfold year_check in Hy.
  apply andb_true_iff in Hy as [Hhi Hlo]. apply Z.leb_le in Hhi.
  unfold days_in_month in *.
  pose proof (month_bounds (is_leap (year d)) (month d) (day d) ltac:(lia) ltac:(lia)) as Hm.
  assert (Hdby : 0 <= days_before_year (year d)).
  { unfold days_before_year. cbv zeta. Z.div_mod_to_equations. lia. }
  unfold toordinal, ymd2ord, days_before_month. split; [lia|].
  intros H1001. apply orb_true_iff in Hlo as [Hlo|Hlo].
  - apply Z.ltb_lt in Hlo. lia.
  - apply Z.leb_le in Hlo. lia.
Qed.

Lemma str_of_Z_four_digits (y : Z) : 1000 <= y <= 9999 -> str_of_Z y = four_digits_text y.
Proof.
  intros Hy.
  assert (H : forall_range 9000 1000
                (fun k => String.eqb (str_of_Z k) (four_digits_text k)) = true)
    by (vm_compute; reflexivity).
  apply String.eqb_eq. apply (forall_range_spec _ _ _ H). lia.
Qed.

Lemma strftime_iso (d : date) :
  valid_date d = true -> 1000 <= year d -> strftime_Y_m_d d = iso_text d.
Proof.
  unfold valid_date, MINYEAR, MAXYEAR. intros Hv Hy.
  repeat (apply andb_true_iff in Hv as [Hv ?]).
  repeat match goal with H : (_ <=? _) = true |- _ => apply Z.leb_le in H end.
  assert (Hd : days_in_month (year d) (month d) <= 31).
  { unfold days_in_month. destruct ((month d =? 2) && is_leap (year d)); [lia|].
    assert (Hc : month d = 1 \/ month d = 2 \/ month d = 3 \/ month d = 4 \/ month d = 5 \/
                 month d = 6 \/ month d = 7 \/ month d = 8 \/ month d = 9 \/ month d = 10 \/
                 month d = 11 \/ month d = 12) by lia.
    destruct Hc as [->|[->|[->|[->|[->|[->|[->|[->|[->|[->|[->| ->]]]]]]]]]]];
      vm_compute; discriminate. }
  unfold strftime_Y_m_d, iso_text.
  rewrite str_of_Z_four_digits by lia.
  by rewrite !format_02d_two_digits by lia.
Qed.

(** ** The date window *)

Ltac body_step :=
  match goal with
  | |- (match ?m with _ => _ end) = _ -> _ =>
      first [ destruct m as [[?|?] ?] eqn:? | destruct m as [?|?] eqn:? ];
      cbv beta iota; try discriminate
  end.

(** The dates of a payload are those of the window. *)
Lemma analytics_body_window cfg env days payload log :
  analytics_body cfg env days [] = (Ok payload, log) ->
  exists sd ed,
    window env days = Ok (sd, ed) /\
    startDate payload = sd /\ endDate payload = ed /\ days_field payload = days.
Proof.
  unfold analytics_body, window, mbind, io_bind, outcome_bind, lift.
  cbv beta iota.
  destruct (new_client env) as [c|e]; [|discriminate].
  destruct (timedelta (days - 1)) as [delta|e]; [|discriminate].
  destruct (date_sub (today env) delta) as [start|e]; [|discriminate].
  repeat body_step.
  intros H. inversion H. eexists _, _. split; [reflexivity|]. by repeat split.
Qed.

(** C2. For [days] from 1 to 365 and a clock that reads a date of the
    calendar from the year 1001 on, the window ends today and starts
    [days - 1] days before today, so that it holds exactly [days] days with
    both ends; the two dates are written [YYYY-MM-DD], and these texts are
    the [startDate] and [endDate] of every successful response. *)
Theorem date_window :
  forall cfg env days,
    1 <= days <= 365 ->
    valid_date (today env) = true ->
    1001 <= year (today env) ->
    exists start_date_obj,
      date_sub (today env) (days - 1) = Ok start_date_obj /\
      valid_date start_date_obj = true /\
      toordinal start_date_obj = toordinal (today env) - (days - 1) /\
      toordinal (today env) - toordinal start_date_obj + 1 = days /\
      window env days = Ok (iso_text start_date_obj, iso_text (today env)) /\
      (forall payload,
         fst (get_analytics cfg env days) = Http200 payload ->
         startDate payload = iso_text start_date_obj /\
         endDate payload = iso_text (today env) /\
         days_field payload = days).
Proof.
  intros cfg env days Hdays Hvalid Hyear.
  destruct (toordinal_bounds _ Hvalid) as [Hord Hlow]. specialize (Hlow Hyear).
  unfold MAXORDINAL in Hord.
  set (o := toordinal (today env) - (days - 1)).
  destruct (ord2ymd_toordinal o ltac:(unfold MAXORDINAL; subst o; lia)) as (Hv & Ho & Hy).
  specialize (Hy ltac:(subst o; lia)).
  assert (Hsub : date_sub (today env) (days - 1) = Ok (ord2ymd o)).
  { unfold date_sub. fold o. unfold MAXORDINAL.
    replace ((1 <=? o) && (o <=? 3652059)) with true; [reflexivity|].
    symmetry. apply andb_true_iff. split; apply Z.leb_le; subst o; lia. }
  assert (Hwin : window env days = Ok (iso_text (ord2ymd o), iso_text (today env))).
  { unfold window, timedelta.
    replace (Z.abs (days - 1) <=? 999999999) with true by (symmetry; apply Z.leb_le; lia).
    cbn [mbind outcome_bind]. rewrite Hsub. cbn [mbind outcome_bind].
    rewrite (strftime_iso _ Hv Hy), (strftime_iso _ Hvalid) by lia. reflexivity. }
  exists (ord2ymd o). split; [exact Hsub|]. split; [exact Hv|]. split; [exact Ho|].
  split; [rewrite Ho; subst o; lia|]. split; [exact Hwin|].
  intros payload H200. unfold get_analytics in H200.
  destruct (analytics_body cfg env days []) as [[p|e] log] eqn:Hbody.
  - cbn [fst] in H200. inversion H200; subst p.
    apply analytics_body_window in Hbody as (sd & ed & Hw & Hs & He & Hd).
    rewrite Hwin in Hw. inversion Hw; subst. auto.
  - destruct (is_ValueError e); discriminate.
Qed.

Lemma date_window_witness :
  exists start_date_obj,
    date_sub (Date 2024 3 5) (30 - 1) = Ok start_date_obj /\
    toordinal (Date 2024 3 5) - toordinal start_date_obj + 1 = 30 /\
    window quiet_environment 30 = Ok (iso_text start_date_obj, iso_text (Date 2024 3 5)).
Proof.
  destruct (date_window sample_config quiet_environment 30)
    as (start & Hs & _ & _ & Hn & Hw & _).
  - lia.
  - reflexivity.
  - simpl. lia.
  - exists start. repeat split; assumption.
Defined.

Example date_window_sample :
  window quiet_environment 30 = Ok ("2024-02-05", "2024-03-05") /\
  window quiet_environment 1 = Ok ("2024-03-05", "2024-03-05").
Proof. split; vm_compute; reflexivity. Qed.

(** * Further properties of the program *)

(** ** The authentication gate *)

(** X1. With both secrets configured, [verify_admin] passes the user name
    on exactly when the name and the password are the configured ones; in
    the three other cases (wrong name, wrong password, both wrong) it
    raises the 401 with the one message [Invalid credentials]. *)
Theorem verify_admin_decides :
  forall cfg u0 p0 username password,
    secrets_are cfg u0 p0 ->
    (username = u0 /\ password = p0 -> verify_admin cfg username password = inr username) /\
    (username <> u0 \/ password <> p0 ->
     verify_admin cfg username password = inl (HttpException 401 "Invalid credentials")) /\
    (forall admin, verify_admin cfg username password = inr admin ->
       admin = username /\ username = u0 /\ password = p0).
Proof.
  intros cfg u0 p0 username password [Hu Hp].
  unfold verify_admin, compare_digest. rewrite Hu, Hp. cbn [mbind outcome_bind].
  destruct (String.eqb_spec username u0) as [Eu|Eu],
    (String.eqb_spec password p0) as [Ep|Ep]; cbn [andb].
  - split; [reflexivity|]. split; [intros [H|H]; contradiction|].
    intros admin H. inversion H. by subst.
  - split; [intros [_ H]; contradiction|]. split; [reflexivity|]. discriminate.
  - split; [intros [H _]; contradiction|]. split; [reflexivity|]. discriminate.
  - split; [intros [H _]; contradiction|]. split; [reflexivity|]. discriminate.
Qed.

Lemma verify_admin_decides_witness :
  verify_admin sample_config "admin" "secret" = inr "admin" /\
  verify_admin sample_config "admin" "guess"
  = inl (HttpException 401 "Invalid credentials").
Proof.
  destruct (verify_admin_decides sample_config "admin" "secret" "admin" "secret")
    as (Hok & _ & _); [split; reflexivity|].
  destruct (verify_admin_decides sample_config "admin" "secret" "admin" "guess")
    as (_ & Hbad & _); [split; reflexivity|].
  split; [apply Hok; split; reflexivity|apply Hbad; right; discriminate].
Defined.

(** X2. When one of the two secrets is not configured, no credentials are
    ever accepted or refused with a 401: the comparison itself raises a
    [TypeError], which nothing handles, and the endpoint answers 500
    without sending a request to the backend. *)
Theorem unconfigured_secret_is_a_type_error :
  forall cfg env (req : http_request) username password,
    ADMIN_USERNAME cfg = None \/ ADMIN_PASSWORD cfg = None ->
    credentials req = Some (username, password) ->
    exists e,
      exn_cls e = TypeError /\
      verify_admin cfg username password = inl (UnhandledException e) /\
      analytics_endpoint cfg env req = (UnhandledException e, []) /\
      status_code_of (fst (analytics_endpoint cfg env req)) = 500.
Proof.
  intros cfg env req username password Hnone Hcred.
  unfold analytics_endpoint. rewrite Hcred.
  unfold verify_admin, compare_digest.
  destruct (ADMIN_USERNAME cfg) as [u0|]; cbn [mbind outcome_bind].
  - destruct Hnone as [H|H]; [discriminate|]. rewrite H. cbn [mbind outcome_bind].
    eexists (Exn TypeError _). repeat split.
  - eexists (Exn TypeError _). repeat split.
Qed.

Lemma unconfigured_secret_is_a_type_error_witness :
  exists e,
    exn_cls e = TypeError /\
    analytics_endpoint (Config (Some "admin") None (Some "1234")) quiet_environment
      (HttpRequest (Some ("admin", "secret")) (QInt 30)) = (UnhandledException e, []).
Proof.
  destruct (unconfigured_secret_is_a_type_error
              (Config (Some "admin") None (Some "1234")) quiet_environment
              (HttpRequest (Some ("admin", "secret")) (QInt 30)) "admin" "secret")
    as (e & He & _ & Hend & _).
  - right. reflexivity.
  - reflexivity.
  - exists e. split; assumption.
Defined.

(** ** The endpoint *)

(** X3. Authentication comes before everything else: a request without
    credentials, or with credentials that are not the configured ones, is
    answered 401 whatever its [days] parameter is (valid, out of range or
    malformed), and the backend receives no request. *)
Theorem unauthenticated_request_is_401 :
  forall cfg env (req : http_request) u0 p0,
    secrets_are cfg u0 p0 ->
    credentials req <> Some (u0, p0) ->
    snd (analytics_endpoint cfg env req) = [] /\
    status_code_of (fst (analytics_endpoint cfg env req)) = 401 /\
    (credentials req = None ->
     fst (analytics_endpoint cfg env req) = HttpException 401 "Not authenticated") /\
    (forall username password, credentials req = Some (username, password) ->
     fst (analytics_endpoint cfg env req) = HttpException 401 "Invalid credentials").
Proof.
  intros cfg env req u0 p0 [Hu Hp] Hne.
  unfold analytics_endpoint.
  destruct (credentials req) as [[username password]|] eqn:Hcred.
  - assert (Hv : verify_admin cfg username password
                 = inl (HttpException 401 "Invalid credentials")).
    { unfold verify_admin, compare_digest. rewrite Hu, Hp. cbn [mbind outcome_bind].
      destruct (String.eqb_spec username u0) as [Eu|Eu],
        (String.eqb_spec password p0) as [Ep|Ep]; cbn [andb]; try reflexivity.
      subst. contradiction. }
    rewrite Hv. repeat split; discriminate.
  - repeat split; discriminate.
Qed.

Lemma unauthenticated_request_is_401_witness :
  analytics_endpoint sample_config quiet_environment
    (HttpRequest (Some ("admin", "guess")) (QInt 0))
  = (HttpException 401 "Invalid credentials", []).
Proof.
  destruct (unauthenticated_request_is_401 sample_config quiet_environment
              (HttpRequest (Some ("admin", "guess")) (QInt 0)) "admin" "secret")
    as (Hlog & _ & _ & Hbad).
  - split; reflexivity.
  - discriminate.
  - specialize (Hbad "admin" "guess" eq_refl).
    destruct (analytics_endpoint sample_config quiet_environment
                (HttpRequest (Some ("admin", "guess")) (QInt 0))) as [r l].
    cbn [fst snd] in *. by subst.
Defined.

(** ** The fetcher, on rows that do not fit the headers *)

Lemma store_values_overlong (headers : list string) (values : list string) :
  forall (i : nat) (it : item),
    (i <= length headers)%nat ->
    (length headers < i + length values)%nat ->
    exists e, store_values headers i values it = Raise e /\ exn_cls e = IndexError.
Proof.
  induction values as [|v values IH]; intros i it Hi Hlen; simpl in *.
  - lia.
  - destruct (headers !! i) as [h|] eqn:Hh.
    + apply lookup_lt_Some in Hh. apply IH; lia.
    + eexists. split; reflexivity.
Qed.

Lemma store_values_Raise headers values i it e :
  store_values headers i values it = Raise e -> exn_cls e = IndexError.
Proof.
  revert i it. induction values as [|v values IH]; intros i it; simpl; [discriminate|].
  destruct (headers !! i); [apply IH|]. intros H. by inversion H.
Qed.

Lemma row_item_ill_formed response dimensions row :
  ~ well_formed_row response dimensions row ->
  exists e, row_item response dimensions row = Raise e /\ exn_cls e = IndexError.
Proof.
  intros Hnot. unfold row_item.
  destruct (truthy dimensions) eqn:Ht.
  - destruct (le_lt_dec (length (dimension_values row)) (length (dimension_headers response)))
      as [Hd|Hd].
    + rewrite store_values_spec by (simpl; lia). cbn [mbind outcome_bind].
      apply store_values_overlong; [lia|]. simpl.
      destruct (le_lt_dec (length (metric_values row)) (length (metric_headers response)));
        [|lia].
      exfalso. apply Hnot. split; [lia|]. auto.
    + destruct (store_values_overlong (dimension_headers response) (dimension_values row)
                  0 ∅ ltac:(lia) ltac:(simpl; lia)) as (e & He & Hc).
      rewrite He. cbn [mbind outcome_bind]. eauto.
  - cbn [mbind outcome_bind]. apply store_values_overlong; [lia|]. simpl.
    destruct (le_lt_dec (length (metric_values row)) (length (metric_headers response)));
      [|lia].
    exfalso. apply Hnot. split; [lia|]. rewrite Ht. discriminate.
Qed.

Lemma omapM_Raise_elem {A B} (f : A -> outcome B) (l : list A) (e : exn) :
  omapM f l = Raise e -> exists a, a ∈ l /\ f a = Raise e.
Proof.
  induction l as [|a l IH]; simpl; [discriminate|].
  destruct (f a) as [b|e'] eqn:Hf; cbn [mbind outcome_bind].
  - destruct (omapM f l) as [bs|e'']; cbn [mbind outcome_bind]; [discriminate|].
    intros H. inversion H; subst. destruct (IH eq_refl) as (a' & Ha' & Hfa').
    exists a'. split; [by constructor|exact Hfa'].
  - intros H. inversion H; subst. exists a. split; [constructor|exact Hf].
Qed.

Lemma omapM_Ok_elem {A B} (f : A -> outcome B) (l : list A) (bs : list B) :
  omapM f l = Ok bs -> forall a, a ∈ l -> exists b, f a = Ok b.
Proof.
  revert bs. induction l as [|a l IH]; intros bs H x Hx; [by apply elem_of_nil in Hx|].
  simpl in H. apply obind_Ok in H as (b & Hb & H).
  apply obind_Ok in H as (bs' & Hbs & _).
  apply elem_of_cons in Hx as [->|Hx]; [eauto|]. by eapply IH.
Qed.

Lemma row_item_Raise response dimensions row e :
  row_item response dimensions row = Raise e -> exn_cls e = IndexError.
Proof.
  unfold row_item.
  destruct (truthy dimensions).
  - destruct (store_values (dimension_headers response) 0 (dimension_values row) ∅)
      as [it|e'] eqn:H1; cbn [mbind outcome_bind].
    + apply store_values_Raise.
    + intros H. inversion H; subst. by eapply store_values_Raise.
  - cbn [mbind outcome_bind]. apply store_values_Raise.
Qed.

Lemma classic_well_formed_row response dimensions row :
  well_formed_row response dimensions row \/ ~ well_formed_row response dimensions row.
Proof.
  unfold well_formed_row.
  destruct (le_lt_dec (length (metric_values row)) (length (metric_headers response)))
    as [Hm|Hm]; [|right; intros [H _]; lia].
  destruct (truthy dimensions); [|left; split; [exact Hm|discriminate]].
  destruct (le_lt_dec (length (dimension_values row)) (length (dimension_headers response)))
    as [Hd|Hd]; [left; auto|].
  right. intros [_ H]. specialize (H eq_refl). lia.
Qed.

(** X4. The fetcher sends exactly one request whatever happens.  When the
    backend answers, the fetch succeeds exactly when every row has no more
    values than there are headers; one row with a value too many makes the
    whole fetch raise an [IndexError], and no record of the other rows is
    returned. *)
Theorem get_ga4_data_outcome :
  forall cfg (c : client) start_date end_date metrics dimensions response log,
    c (request_of cfg start_date end_date metrics dimensions) = Ok response ->
    snd (get_ga4_data cfg c start_date end_date metrics dimensions log)
      = log ++ [request_of cfg start_date end_date metrics dimensions] /\
    ((exists items,
        fst (get_ga4_data cfg c start_date end_date metrics dimensions log) = Ok items)
     <-> well_formed response dimensions) /\
    (~ well_formed response dimensions ->
     exists e,
       fst (get_ga4_data cfg c start_date end_date metrics dimensions log) = Raise e /\
       exn_cls e = IndexError).
Proof.
  intros cfg c start_date end_date metrics dimensions response log Hc.
  assert (Hrun : get_ga4_data cfg c start_date end_date metrics dimensions log
                 = (omapM (row_item response dimensions) (rows response),
                    log ++ [request_of cfg start_date end_date metrics dimensions])).
  { unfold get_ga4_data, run_report, mbind, io_bind, lift, request_of in *. by rewrite Hc. }
  rewrite Hrun. cbn [fst snd]. split; [reflexivity|].
  assert (Hiff : (exists items, omapM (row_item response dimensions) (rows response) = Ok items)
                 <-> well_formed response dimensions).
  { split.
    - intros [items Hitems]. unfold well_formed. apply Forall_forall. intros row Hrow.
      destruct (omapM_Ok_elem _ _ _ Hitems row Hrow) as [it Hit].
      destruct (classic_well_formed_row response dimensions row) as [Hw|Hw]; [exact Hw|].
      destruct (row_item_ill_formed response dimensions row Hw) as (e & He & _).
      congruence.
    - intros Hwf. eexists. apply omapM_fmap. intros row Hrow. apply row_item_spec.
      unfold well_formed in Hwf. rewrite Forall_forall in Hwf. by apply Hwf. }
  split; [exact Hiff|].
  intros Hnot.
  destruct (omapM (row_item response dimensions) (rows response)) as [items|e] eqn:Hm.
  - exfalso. apply Hnot, Hiff. eauto.
  - exists e. split; [reflexivity|].
    apply omapM_Raise_elem in Hm as (row & _ & Hrow). by eapply row_item_Raise.
Qed.

Lemma get_ga4_data_outcome_witness :
  exists e,
    fst (get_ga4_data sample_config (fun _ => Ok overlong_response)
           "2024-03-05" "2024-03-06" ["sessions"] (Some ["date"]) []) = Raise e /\
    exn_cls e = IndexError.
Proof.
  destruct (get_ga4_data_outcome sample_config (fun _ => Ok overlong_response)
              "2024-03-05" "2024-03-06" ["sessions"] (Some ["date"]) overlong_response []
              eq_refl) as (_ & _ & Hbad).
  apply Hbad. unfold well_formed. intros H.
  apply Forall_cons in H as [_ H]. apply Forall_cons in H as [[H _] _].
  simpl in H. lia.
Defined.

(** ** Top pages and traffic sources *)

Lemma top_page_of_Ok (row : item) :
  page_row_ok row -> top_page_of row = Ok (page_entry row).
Proof.
  intros (Hv & Hb & He). unfold top_page_of, page_entry, percent_of_field.
  rewrite (converts_field_int _ _ Hv), (converts_field_int _ _ He),
    (parses_field_float _ _ Hb). reflexivity.
Qed.

Lemma top_page_of_Ok_inv (row : item) (p : top_page) :
  top_page_of row = Ok p -> page_row_ok row.
Proof.
  unfold top_page_of, percent_of_field. intros H.
  apply obind_Ok in H as (v & Hv & H).
  apply obind_Ok in H as (b & Hb & H).
  apply obind_Ok in Hb as (f & Hf & _).
  apply obind_Ok in H as (e & He & _).
  unfold page_row_ok, converts, parses. repeat split; eauto.
Qed.

(** X5. The list of top pages is made from the first ten fetched rows
    only, in the order of the backend: it has [min 10 n] entries for [n]
    rows, the entry of a row holds its path (or [(not set)]), its views and
    engaged sessions as integers, its duration as text and its bounce rate
    as a percentage; rows after the tenth are never looked at, so a value
    in them that is no number does no harm, while one such value among the
    first ten makes the whole list raise. *)
Theorem top_pages_first_ten :
  forall top_pages_raw : list item,
    Forall page_row_ok (take 10 top_pages_raw) ->
    top_pages (take 10 top_pages_raw) = Ok (page_entry <$> take 10 top_pages_raw) /\
    length (page_entry <$> take 10 top_pages_raw) = (length top_pages_raw `min` 10)%nat /\
    (forall (i : nat) row, (i < 10)%nat -> top_pages_raw !! i = Some row ->
       (page_entry <$> take 10 top_pages_raw) !! i = Some (page_entry row)) /\
    (forall later, (10 <= length top_pages_raw)%nat ->
       top_pages (take 10 (top_pages_raw ++ later)) = top_pages (take 10 top_pages_raw)).
Proof.
  intros raw Hok. split; [|split; [|split]].
  - unfold top_pages. apply omapM_fmap. intros row Hrow. apply top_page_of_Ok.
    rewrite Forall_forall in Hok. by apply Hok.
  - rewrite length_fmap, length_take. lia.
  - intros i row Hi Hrow. rewrite list_lookup_fmap, lookup_take_lt by exact Hi.
    by rewrite Hrow.
  - intros later Hlen. by rewrite take_app_le.
Qed.

Lemma top_pages_first_ten_witness :
  top_pages (take 10 (replicate 10 good_page_row ++ [bad_page_row]))
  = Ok (page_entry <$> take 10 (replicate 10 good_page_row ++ [bad_page_row])).
Proof.
  refine (proj1 (top_pages_first_ten (replicate 10 good_page_row ++ [bad_page_row]) _)).
  cbn [replicate app take].
  repeat constructor; unfold converts, parses; eexists; vm_compute; reflexivity.
Defined.

(** A value that is no number among the first ten rows makes the list
    raise: the list is returned exactly when the first ten rows convert. *)
Lemma top_pages_Ok_iff (top_pages_raw : list item) :
  (exists p, top_pages (take 10 top_pages_raw) = Ok p)
  <-> Forall page_row_ok (take 10 top_pages_raw).
Proof.
  split.
  - intros [p Hp]. apply Forall_forall. intros row Hrow.
    destruct (omapM_Ok_elem _ _ _ Hp row Hrow) as [e He].
    by eapply top_page_of_Ok_inv.
  - intros Hok. eexists. unfold top_pages. apply omapM_fmap.
    intros row Hrow. apply top_page_of_Ok. rewrite Forall_forall in Hok. by apply Hok.
Qed.

Lemma source_fold (l : list item) :
  forall t, Forall source_row_ok l ->
    ofold source_step t l =
    Ok (SourceSeries (src_labels t ++ (source_label <$> l))
          (src_sessions t ++ (field_int "sessions" <$> l))
          (src_users t ++ (field_int "activeUsers" <$> l))).
Proof.
  induction l as [|row l IH]; intros t Hl.
  - simpl. rewrite !app_nil_r. by destruct t.
  - inversion Hl as [|? ? (Hs & Hu) Hl']; subst.
    cbn [ofold]. unfold source_step.
    rewrite (converts_field_int _ _ Hs), (converts_field_int _ _ Hu).
    cbn [mbind outcome_bind]. rewrite IH by assumption.
    cbn [src_labels src_sessions src_users fmap list_fmap].
    unfold source_label at 2. by rewrite <- !app_assoc.
Qed.

Lemma source_fold_inv (l : list item) :
  forall t t', ofold source_step t l = Ok t' -> Forall source_row_ok l.
Proof.
  induction l as [|row l IH]; intros t t' H; [constructor|].
  cbn [ofold] in H. apply obind_Ok in H as (t1 & Hstep & Hrest).
  constructor; [|by eapply IH].
  unfold source_step in Hstep.
  apply obind_Ok in Hstep as (s & Hs & Hstep).
  apply obind_Ok in Hstep as (u & Hu & _).
  unfold source_row_ok, converts. split; eauto.
Qed.

(** X6. The traffic sources are made from the first eight fetched rows
    only, in the order of the backend and without sorting: three lists of
    the same length, [min 8 n] for [n] rows, holding the channel group (or
    [(other)]) and the sessions and users as integers.  The lists are
    returned exactly when the first eight rows convert. *)
Theorem traffic_sources_first_eight :
  forall sources_raw : list item,
    ((exists s, traffic_sources (take 8 sources_raw) = Ok s)
     <-> Forall source_row_ok (take 8 sources_raw)) /\
    (forall s, traffic_sources (take 8 sources_raw) = Ok s ->
       src_labels s = source_label <$> take 8 sources_raw /\
       src_sessions s = field_int "sessions" <$> take 8 sources_raw /\
       src_users s = field_int "activeUsers" <$> take 8 sources_raw /\
       length (src_labels s) = (length sources_raw `min` 8)%nat /\
       length (src_sessions s) = length (src_labels s) /\
       length (src_users s) = length (src_labels s)).
Proof.
  intros raw. split.
  - split.
    + intros [s Hs]. by eapply source_fold_inv.
    + intros Hok. eexists. unfold traffic_sources. by apply source_fold.
  - intros s Hs. pose proof (source_fold_inv _ _ _ Hs) as Hok.
    unfold traffic_sources in Hs. rewrite (source_fold _ _ Hok) in Hs.
    inversion Hs; subst s. cbn [src_labels src_sessions src_users app].
    rewrite !length_fmap, length_take. repeat split. lia.
Qed.

Lemma traffic_sources_first_eight_witness :
  src_labels
    (match traffic_sources (take 8 (replicate 9 good_source_row)) with
     | Ok s => s
     | Raise _ => SourceSeries [] [] []
     end)
  = source_label <$> take 8 (replicate 9 good_source_row).
Proof.
  destruct (traffic_sources_first_eight (replicate 9 good_source_row)) as [Hiff Hs].
  destruct (proj2 Hiff) as [s Hok].
  - cbn [replicate take].
    repeat constructor; unfold converts; eexists; vm_compute; reflexivity.
  - rewrite Hok. exact (proj1 (Hs s Hok)).
Defined.

(** ** Traffic over time: all or nothing *)

Lemma traffic_step_Raise t row e :
  traffic_step t row = Raise e -> exn_cls e = ValueError \/ exn_cls e = OverflowError.
Proof.
  unfold traffic_step. cbv zeta. repeat raise_step. discriminate.
Qed.

Lemma ofold_Raise {S A} (step : S -> A -> outcome S) (l : list A) :
  forall st e, ofold step st l = Raise e -> exists st' a, a ∈ l /\ step st' a = Raise e.
Proof.
  induction l as [|a l IH]; intros st e H; [discriminate|].
  cbn [ofold] in H. destruct (step st a) as [st1|e1] eqn:Hstep; cbn [mbind outcome_bind] in H.
  - destruct (IH _ _ H) as (st' & a' & Ha' & Hs'). exists st', a'. split; [by constructor|done].
  - inversion H; subst. exists st, a. split; [constructor|done].
Qed.

(** X7. The series of traffic over time is all or nothing: it is returned
    exactly when the four counts of every fetched row convert, and one row
    with a count that is no number, wherever it stands, makes the whole
    aggregation raise a [ValueError] or an [OverflowError]; no shorter
    series is ever returned. *)
Theorem traffic_over_time_all_or_nothing :
  forall traffic_raw : list item,
    ((exists t, traffic_over_time traffic_raw = Ok t) <-> Forall traffic_row_ok traffic_raw) /\
    (forall t, traffic_over_time traffic_raw = Ok t ->
       length (ts_labels t) = length traffic_raw) /\
    (forall e, traffic_over_time traffic_raw = Raise e ->
       (exn_cls e = ValueError \/ exn_cls e = OverflowError) /\
       ~ Forall traffic_row_ok traffic_raw).
Proof.
  intros raw.
  assert (Hiff : (exists t, traffic_over_time raw = Ok t) <-> Forall traffic_row_ok raw).
  { split.
    - intros [t Ht]. by eapply traffic_over_time_Ok_inv.
    - intros Hok. eexists. unfold traffic_over_time. apply traffic_fold.
      eapply Permutation_Forall; [symmetry; apply sorted_perm|exact Hok]. }
  split; [exact Hiff|]. split.
  - intros t Ht. pose proof (traffic_over_time_Ok_inv _ _ Ht) as Hok.
    unfold traffic_over_time in Ht. rewrite traffic_fold in Ht.
    + inversion Ht; subst t. cbn [ts_labels app]. by rewrite length_fmap, sorted_length.
    + eapply Permutation_Forall; [symmetry; apply sorted_perm|exact Hok].
  - intros e He. split.
    + unfold traffic_over_time in He. apply ofold_Raise in He as (st & row & _ & Hstep).
      by eapply traffic_step_Raise.
    + intros Hok. apply Hiff in Hok as [t Ht]. congruence.
Qed.

Lemma traffic_over_time_all_or_nothing_witness :
  exists t, traffic_over_time sample_traffic_rows = Ok t.
Proof.
  apply (proj2 (proj1 (traffic_over_time_all_or_nothing sample_traffic_rows))).
  repeat constructor; unfold converts; eexists; vm_compute; reflexivity.
Defined.

(** ** The run of the handler *)

Lemma get_ga4_data_log cfg (c : client) sd ed metrics dimensions log :
  snd (get_ga4_data cfg c sd ed metrics dimensions log)
  = log ++ [request_of cfg sd ed metrics dimensions].
Proof.
  unfold get_ga4_data, run_report, mbind, io_bind, lift, request_of.
  by destruct (c _).
Qed.

Lemma get_ga4_data_Ok_inv cfg (c : client) sd ed metrics dimensions log items log' :
  get_ga4_data cfg c sd ed metrics dimensions log = (Ok items, log') ->
  exists response,
    c (request_of cfg sd ed metrics dimensions) = Ok response /\
    well_formed response dimensions /\
    items = records response dimensions.
Proof.
  unfold get_ga4_data, run_report, mbind, io_bind, lift, request_of.
  destruct (c _) as [response|e] eqn:Hc; [|discriminate].
  intros H. inversion H as [[Hitems Hlog]]. clear H.
  exists response. split; [reflexivity|].
  assert (Hwf : well_formed response dimensions).
  { unfold well_formed. apply Forall_forall. intros row Hrow.
    destruct (omapM_Ok_elem _ _ _ Hitems row Hrow) as [it Hit].
    destruct (classic_well_formed_row response dimensions row) as [Hw|Hw]; [exact Hw|].
    destruct (row_item_ill_formed response dimensions row Hw) as (e & He & _).
    congruence. }
  split; [exact Hwf|].
  assert (Hrec : omapM (row_item response dimensions) (rows response)
                 = Ok (records response dimensions)).
  { apply omapM_fmap. intros row Hrow. apply row_item_spec.
    unfold well_formed in Hwf. rewrite Forall_forall in Hwf. by apply Hwf. }
  rewrite Hrec in Hitems. by inversion Hitems.
Qed.

Lemma get_analytics_log cfg env days :
  snd (get_analytics cfg env days) = snd (analytics_body cfg env days []).
Proof.
  unfold get_analytics. destruct (analytics_body cfg env days []) as [[p|e] l];
    [reflexivity|]. by destruct (is_ValueError e).
Qed.

Ltac fetch_step :=
  match goal with
  | |- context [get_ga4_data ?cfg ?c ?sd ?ed ?ms ?ds ?l] =>
      let Hl := fresh "Hl" in
      let o := fresh "o" in
      let l' := fresh "l" in
      pose proof (get_ga4_data_log cfg c sd ed ms ds l) as Hl;
      destruct (get_ga4_data cfg c sd ed ms ds l) as [o l'];
      cbn [snd] in Hl; subst l'; destruct o as [?|?]; cbv beta iota
  end.

Ltac lift_step :=
  match goal with
  | |- context [match ?m with Ok _ => _ | Raise _ => _ end] =>
      destruct m as [?|?]; cbv beta iota
  end.

Ltac run_done :=
  cbn [fst snd app];
  split; [eexists; reflexivity|];
  split; [discriminate|];
  intros ? ?; first [discriminate | match goal with H : Ok _ = Ok _ |- _ =>
    inversion H; subst; repeat split end].

(** X8. Once the client is built and the window computed, a run of the
    handler sends the five reports in one fixed order (overview, daily
    traffic, pages, devices, sources), all for the same property and the
    same window, and stops at the first one that fails or cannot be
    aggregated: the requests sent are a non-empty prefix of the five, never
    more and never in another order.  A payload is only returned after all
    five were sent, and it carries [status = success], the [days] of the
    request, the two dates of the window and the time stamp. *)
Theorem handler_requests :
  forall cfg env days (c : client) sd ed,
    new_client env = Ok c ->
    window env days = Ok (sd, ed) ->
    snd (get_analytics cfg env days) `prefix_of` five_requests cfg sd ed /\
    snd (get_analytics cfg env days) <> [] /\
    (forall p, fst (analytics_body cfg env days []) = Ok p ->
       snd (get_analytics cfg env days) = five_requests cfg sd ed /\
       status p = "success" /\ days_field p = days /\
       startDate p = sd /\ endDate p = ed /\ timestamp p = now_isoformat env).
Proof.
  intros cfg env days c sd ed Hc Hw.
  rewrite get_analytics_log.
  apply window_Ok in Hw as (delta & start & Hdelta & Hstart & -> & ->).
  unfold analytics_body, mbind, io_bind, lift. rewrite Hc, Hdelta, Hstart. cbv beta iota.
  unfold five_requests, overview_request, traffic_request, pages_request, devices_request,
    sources_request.
  fetch_step; [|run_done].
  lift_step; [|run_done].
  fetch_step; [|run_done].
  lift_step; [|run_done].
  fetch_step; [|run_done].
  lift_step; [|run_done].
  fetch_step; [|run_done].
  lift_step; [|run_done].
  fetch_step; [|run_done].
  lift_step; run_done.
Qed.

Lemma handler_requests_witness :
  snd (get_analytics sample_config flaky_environment 30)
    `prefix_of` five_requests sample_config "2024-02-05" "2024-03-05" /\
  snd (get_analytics sample_config flaky_environment 30) <> [].
Proof.
  destruct (handler_requests sample_config flaky_environment 30 second_report_fails
              "2024-02-05" "2024-03-05" eq_refl eq_refl) as (H1 & H2 & _).
  split; assumption.
Defined.

Example flaky_run :
  get_analytics sample_config flaky_environment 30
  = (HttpException 500 "Analytics error: 503 backend unavailable",
     [overview_request sample_config "2024-02-05" "2024-03-05";
      traffic_request sample_config "2024-02-05" "2024-03-05"]).
Proof. vm_compute. reflexivity. Qed.

(** X9. Before the first report nothing is sent: when the construction of
    the client raises, or when the date window cannot be computed (the
    subtraction leaves the calendar), the handler answers with that
    exception (500 unless it is a [ValueError]) and the backend has
    received no request. *)
Theorem early_failure_sends_nothing :
  forall cfg env days e,
    new_client env = Raise e \/
    ((exists c, new_client env = Ok c) /\ window env days = Raise e) ->
    get_analytics cfg env days =
      (if is_ValueError e
       then HttpException 400 ("Invalid days value: " +:+ exn_msg e)
       else HttpException 500 ("Analytics error: " +:+ exn_msg e), []).
Proof.
  intros cfg env days e [He|[[c Hc] Hw]];
    unfold get_analytics, analytics_body, mbind, io_bind, lift.
  - rewrite He. cbv beta iota. by destruct (is_ValueError e).
  - rewrite Hc. cbv beta iota. unfold window in Hw.
    destruct (timedelta (days - 1)) as [delta|e1]; cbn [mbind outcome_bind] in Hw.
    + destruct (date_sub (today env) delta) as [start|e2]; cbn [mbind outcome_bind] in Hw;
        [discriminate|].
      inversion Hw; subst. cbv beta iota. by destruct (is_ValueError e).
    + inversion Hw; subst. cbv beta iota. by destruct (is_ValueError e).
Qed.

Lemma early_failure_sends_nothing_witness :
  get_analytics sample_config
    (Environment (Ok (fun _ => Ok empty_response)) (Date 1 1 10)
       "0001-01-10T12:00:00.000000") 30
  = (HttpException 500 "Analytics error: date value out of range", []).
Proof.
  apply (early_failure_sends_nothing sample_config
           (Environment (Ok (fun _ => Ok empty_response)) (Date 1 1 10)
              "0001-01-10T12:00:00.000000") 30
           (Exn OverflowError "date value out of range")).
  right. split; [eexists; reflexivity|reflexivity].
Defined.

(** X10. A 200 is all or nothing: the handler returns a payload only when
    the client was built, the window computed, and each of the five
    reports was answered with rows that fit their headers; each part of
    the payload's data is then the aggregate of the records of its own
    report, the pages of at most the first ten and the sources of at most
    the first eight records. *)
Theorem success_is_whole :
  forall cfg env days p,
    fst (get_analytics cfg env days) = Http200 p ->
    exists (c : client) sd ed r_overview r_traffic r_pages r_devices r_sources,
      new_client env = Ok c /\
      window env days = Ok (sd, ed) /\
      c (overview_request cfg sd ed) = Ok r_overview /\ well_formed r_overview None /\
      build_overview days sd ed (records r_overview None) = Ok (overview (data p)) /\
      c (traffic_request cfg sd ed) = Ok r_traffic /\
      well_formed r_traffic (Some ["date"]) /\
      traffic_over_time (records r_traffic (Some ["date"])) = Ok (trafficOverTime (data p)) /\
      c (pages_request cfg sd ed) = Ok r_pages /\
      well_formed r_pages (Some ["pagePath"]) /\
      top_pages (take 10 (records r_pages (Some ["pagePath"]))) = Ok (topPages (data p)) /\
      c (devices_request cfg sd ed) = Ok r_devices /\
      well_formed r_devices (Some ["deviceCategory"]) /\
      device_category (records r_devices (Some ["deviceCategory"]))
        = Ok (deviceCategory (data p)) /\
      c (sources_request cfg sd ed) = Ok r_sources /\
      well_formed r_sources (Some ["sessionDefaultChannelGroup"]) /\
      traffic_sources (take 8 (records r_sources (Some ["sessionDefaultChannelGroup"])))
        = Ok (trafficSources (data p)).
Proof.
  intros cfg env days p H200.
  unfold get_analytics in H200.
  destruct (analytics_body cfg env days []) as [[p'|e] log] eqn:Hbody;
    [|destruct (is_ValueError e); discriminate].
  cbn [fst] in H200. inversion H200; subst p'. clear H200.
  revert Hbody. unfold analytics_body, mbind, io_bind, lift.
  destruct (new_client env) as [c|e] eqn:Hc; [|discriminate].
  destruct (timedelta (days - 1)) as [delta|e] eqn:Hdelta; [|discriminate].
  destruct (date_sub (today env) delta) as [start|e] eqn:Hstart; [|discriminate].
  cbv beta iota.
  assert (Hw : window env days = Ok (strftime_Y_m_d start, strftime_Y_m_d (today env))).
  { unfold window. rewrite Hdelta. cbn [mbind outcome_bind]. by rewrite Hstart. }
  set (sd := strftime_Y_m_d start) in *. set (ed := strftime_Y_m_d (today env)) in *.
  destruct (get_ga4_data cfg c sd ed overview_metrics None []) as [[i1|e] l1] eqn:E1;
    [|discriminate].
  apply get_ga4_data_Ok_inv in E1 as (r1 & Hr1 & Hw1 & ->).
  destruct (build_overview days sd ed (records r1 None)) as [ov|e] eqn:A1; [|discriminate].
  cbv beta iota.
  destruct (get_ga4_data cfg c sd ed traffic_metrics (Some ["date"]) l1)
    as [[i2|e] l2] eqn:E2; [|discriminate].
  apply get_ga4_data_Ok_inv in E2 as (r2 & Hr2 & Hw2 & ->).
  destruct (traffic_over_time (records r2 (Some ["date"]))) as [t|e] eqn:A2; [|discriminate].
  cbv beta iota.
  destruct (get_ga4_data cfg c sd ed page_metrics (Some ["pagePath"]) l2)
    as [[i3|e] l3] eqn:E3; [|discriminate].
  apply get_ga4_data_Ok_inv in E3 as (r3 & Hr3 & Hw3 & ->).
  destruct (top_pages (take 10 (records r3 (Some ["pagePath"])))) as [pg|e] eqn:A3;
    [|discriminate].
  cbv beta iota.
  destruct (get_ga4_data cfg c sd ed device_metrics (Some ["deviceCategory"]) l3)
    as [[i4|e] l4] eqn:E4; [|discriminate].
  apply get_ga4_data_Ok_inv in E4 as (r4 & Hr4 & Hw4 & ->).
  destruct (device_category (records r4 (Some ["deviceCategory"]))) as [dv|e] eqn:A4;
    [|discriminate].
  cbv beta iota.
  destruct (get_ga4_data cfg c sd ed source_metrics (Some ["sessionDefaultChannelGroup"]) l4)
    as [[i5|e] l5] eqn:E5; [|discriminate].
  apply get_ga4_data_Ok_inv in E5 as (r5 & Hr5 & Hw5 & ->).
  destruct (traffic_sources (take 8 (records r5 (Some ["sessionDefaultChannelGroup"]))))
    as [sr|e] eqn:A5; [|discriminate].
  cbv beta iota. intros H. inversion H; subst p. clear H.
  cbn [data overview trafficOverTime topPages deviceCategory trafficSources].
  exists c, sd, ed, r1, r2, r3, r4, r5.
  unfold overview_request, traffic_request, pages_request, devices_request, sources_request.
  repeat split; assumption.
Qed.

Lemma quiet_run_is_200 :
  fst (get_analytics sample_config quiet_environment 30)
  = Http200 (AnalyticsPayload "success" 30 "2024-02-05" "2024-03-05"
               (AnalyticsData ∅ (TrafficSeries [] [] [] [] []) []
                  (DeviceBreakdown device_labels [whole 0; whole 0; whole 0] device_colors)
                  (SourceSeries [] [] []))
               "2024-03-05T12:00:00.000000").
Proof. vm_compute. reflexivity. Defined.

Lemma success_is_whole_witness :
  exists (c : client) sd ed,
    new_client quiet_environment = Ok c /\ window quiet_environment 30 = Ok (sd, ed).
Proof.
  destruct (success_is_whole sample_config quiet_environment 30 _ quiet_run_is_200)
    as (c & sd & ed & _ & _ & _ & _ & _ & Hc & Hw & _).
  exists c, sd, ed. split; assumption.
Defined.

(** ** The overview dictionary *)

Lemma field_int_of name row n : int_of_field (row !! name) = Ok n -> field_int name row = n.
Proof. intros H. unfold field_int. by rewrite H. Qed.

Lemma field_float_of name row f :
  float_of_field (row !! name) = Ok f -> field_float name row = f.
Proof. intros H. unfold field_float. by rewrite H. Qed.

Lemma percent_of_field_Ok name row b :
  percent_of_field (row !! name) = Ok b ->
  parses name row /\ b = field_percent name row.
Proof.
  unfold percent_of_field. intros H. apply obind_Ok in H as (f & Hf & H).
  inversion H. split; [by exists f|]. unfold field_percent.
  by rewrite (field_float_of _ _ _ Hf).
Qed.

(** X11. The overview is all or nothing.  Without a row it is the empty
    dictionary; with rows it is built from the first row alone and has
    exactly thirteen keys: the days and the two dates of the request, the
    five counts as integers, the duration as text, the two rates as
    percentages, the conversions and the conversion rate.  It is never a
    dictionary with only some of the keys. *)
Theorem overview_all_or_nothing :
  forall days sd ed (overview_raw : list item) ov,
    build_overview days sd ed overview_raw = Ok ov ->
    (overview_raw = [] /\ ov = ∅) \/
    (exists data rest,
       overview_raw = data :: rest /\
       overview_row_ok data /\
       dom ov = overview_keys /\
       ov !! "periodDays" = Some (JInt days) /\
       ov !! "startDate" = Some (JStr sd) /\
       ov !! "endDate" = Some (JStr ed) /\
       ov !! "totalUsers" = Some (JInt (field_int "totalUsers" data)) /\
       ov !! "newUsers" = Some (JInt (field_int "newUsers" data)) /\
       ov !! "sessions" = Some (JInt (field_int "sessions" data)) /\
       ov !! "engagedSessions" = Some (JInt (field_int "engagedSessions" data)) /\
       ov !! "pageViews" = Some (JInt (field_int "screenPageViews" data)) /\
       ov !! "avgSessionDuration"
         = Some (JStr (format_duration (default "0" (data !! "averageSessionDuration")))) /\
       ov !! "bounceRate" = Some (JFloat (field_percent "bounceRate" data)) /\
       ov !! "engagementRate" = Some (JFloat (field_percent "engagementRate" data)) /\
       ov !! "conversions" = Some (JInt (field_int "conversions" data)) /\
       ov !! "conversionRate"
         = Some (JFloat (conversion_rate (field_float "conversions" data)
                                         (field_float "sessions" data)))).
Proof.
  intros days sd ed raw ov H. destruct raw as [|data rest].
  { left. inversion H. auto. }
  right. exists data, rest. split; [reflexivity|].
  unfold build_overview, overview_of_row in H.
  apply obind_Ok in H as (ts & Hts & H).
  apply obind_Ok in H as (tu & Htu & H).
  apply obind_Ok in H as (nu & Hnu & H).
  apply obind_Ok in H as (ss & Hss & H).
  apply obind_Ok in H as (es & Hes & H).
  apply obind_Ok in H as (pv & Hpv & H).
  cbv zeta in H.
  apply obind_Ok in H as (br & Hbr & H).
  apply obind_Ok in H as (er & Her & H).
  apply obind_Ok in H as (cv & Hcv & H).
  apply obind_Ok in H as (cr & Hcr & H).
  apply obind_Ok in Hcr as (cf & Hcf & Hcr).
  rewrite fdiv_fmax1 in Hcr. cbn [mbind outcome_bind] in Hcr.
  apply percent_of_field_Ok in Hbr as [Pbr ->].
  apply percent_of_field_Ok in Her as [Per ->].
  assert (Hsess : int_of_field (data !! "sessions") = Ok ss).
  { unfold int_of_field. by rewrite Hts. }
  inversion Hcr; subst cr. inversion H; subst ov. clear H Hcr.
  rewrite <- (field_float_of _ _ _ Hts), <- (field_float_of _ _ _ Hcf).
  rewrite <- (field_int_of _ _ _ Htu), <- (field_int_of _ _ _ Hnu),
    <- (field_int_of _ _ _ Hsess), <- (field_int_of _ _ _ Hes),
    <- (field_int_of _ _ _ Hpv), <- (field_int_of _ _ _ Hcv).
  split.
  { unfold overview_row_ok, converts. repeat split; eauto. }
  split.
  { rewrite !dom_insert_L, dom_empty_L. unfold overview_keys. cbn [list_to_set foldr].
    set_solver. }
  repeat split; by simplify_map_eq.
Qed.

Lemma build_overview_Ok days sd ed (data : item) (rest : list item) :
  overview_row_ok data -> exists ov, build_overview days sd ed (data :: rest) = Ok ov.
Proof.
  intros (Hs & Htu & Hnu & Hes & Hpv & Hbr & Her & Hc).
  unfold build_overview, overview_of_row, percent_of_field.
  rewrite (parses_field_float _ _ (converts_parses _ _ Hs)).
  rewrite (parses_field_float _ _ (converts_parses _ _ Hc)).
  rewrite (parses_field_float _ _ Hbr), (parses_field_float _ _ Her).
  rewrite (converts_field_int _ _ Htu), (converts_field_int _ _ Hnu),
    (converts_field_int _ _ Hes), (converts_field_int _ _ Hpv),
    (converts_field_int _ _ Hc).
  cbn [mbind outcome_bind].
  rewrite (converts_int_of_float _ _ Hs). cbn [mbind outcome_bind].
  rewrite fdiv_fmax1. cbn [mbind outcome_bind]. eauto.
Qed.

Lemma full_overview_row_ok : overview_row_ok full_overview_row.
Proof.
  unfold overview_row_ok, converts, parses.
  repeat split; eexists; vm_compute; reflexivity.
Defined.

Lemma overview_all_or_nothing_witness :
  exists ov,
    build_overview 30 "2024-02-05" "2024-03-05" [full_overview_row] = Ok ov /\
    dom ov = overview_keys.
Proof.
  destruct (build_overview_Ok 30 "2024-02-05" "2024-03-05" full_overview_row []
              full_overview_row_ok) as [ov Hov].
  destruct (overview_all_or_nothing 30 "2024-02-05" "2024-03-05" [full_overview_row] ov Hov)
    as [[Hnil _]|(data & rest & _ & _ & Hdom & _)]; [discriminate|].
  exists ov. split; assumption.
Defined.

(** ** The device buckets *)

Lemma users_partition (l : list item) :
  total_users l
  = bucket "desktop" l + bucket "mobile" l + bucket "tablet" l + unclassified_users l.
Proof.
  unfold total_users, bucket, unclassified_users, classified, Zsum.
  induction l as [|it l IH]; [reflexivity|].
  cbn [List.filter fmap list_fmap foldr].
  destruct (String.eqb_spec (row_category it) "desktop") as [E1|E1];
    destruct (String.eqb_spec (row_category it) "mobile") as [E2|E2];
    destruct (String.eqb_spec (row_category it) "tablet") as [E3|E3];
    try (rewrite E1 in E2; discriminate E2);
    try (rewrite E1 in E3; discriminate E3);
    try (rewrite E2 in E3; discriminate E3);
    cbn [orb negb fmap list_fmap foldr]; lia.
Qed.

(** X12. The loop over the device rows never adds a key to its dictionary:
    after any rows it holds exactly desktop, mobile and tablet, each with
    the users of its own rows, and a row of another category (or without a
    category, which counts as [other]) only raises the total.  The total is
    the sum of the three buckets and of the users of the other rows, so the
    three buckets never exceed the total when no count is negative. *)
Theorem device_buckets_partition :
  forall devices_raw : list item,
    Forall (converts "activeUsers") devices_raw ->
    exists (device_map : gmap string Z) (total : Z),
      ofold device_step (device_map0, 0) devices_raw = Ok (device_map, total) /\
      dom device_map = device_keys /\
      device_map !! "desktop" = Some (bucket "desktop" devices_raw) /\
      device_map !! "mobile" = Some (bucket "mobile" devices_raw) /\
      device_map !! "tablet" = Some (bucket "tablet" devices_raw) /\
      total = total_users devices_raw /\
      total = bucket "desktop" devices_raw + bucket "mobile" devices_raw
              + bucket "tablet" devices_raw + unclassified_users devices_raw /\
      (forall it, it ∈ devices_raw -> it !! "deviceCategory" = None ->
         classified it = false).
Proof.
  intros rows Hconv.
  destruct (device_fold rows device_map0 0 Hconv) as (dm & Hfold & Hdm).
  exists dm, (0 + total_users rows). split; [exact Hfold|].
  split.
  { apply set_eq. intros c. rewrite elem_of_dom, Hdm, fmap_is_Some, <- elem_of_dom.
    unfold device_map0, device_keys. rewrite !dom_insert_L, dom_empty_L.
    cbn [list_to_set foldr]. set_solver. }
  rewrite !Hdm. unfold device_map0.
  split; [by simplify_map_eq|]. split; [by simplify_map_eq|]. split; [by simplify_map_eq|].
  split; [lia|]. split; [rewrite Z.add_0_l; apply users_partition|].
  intros it _ Hnone. unfold classified, row_category. rewrite Hnone. reflexivity.
Qed.

Lemma device_buckets_partition_witness :
  exists (device_map : gmap string Z) (total : Z),
    ofold device_step (device_map0, 0) sample_devices = Ok (device_map, total) /\
    dom device_map = device_keys /\
    total = total_users sample_devices.
Proof.
  destruct (device_buckets_partition sample_devices sample_devices_convert)
    as (dm & tot & H1 & H2 & _ & _ & _ & H3 & _).
  exists dm, tot. repeat split; assumption.
Defined.

Lemma Zsum_zero (l : list Z) : Forall (fun n => n = 0) l -> Zsum l = 0.
Proof. unfold Zsum. induction 1 as [|n l Hn Hl IH]; simpl; lia. Qed.

Lemma bucket_zero (cat : string) (l : list item) :
  Forall (fun it => field_int "activeUsers" it = 0) l -> bucket cat l = 0.
Proof.
  intros H. unfold bucket. apply Zsum_zero.
  induction H as [|it l Hit Hl IH]; [constructor|].
  cbn [List.filter]. destruct (String.eqb (row_category it) cat); [|exact IH].
  by constructor.
Qed.

Lemma total_users_zero (l : list item) :
  Forall (fun it => field_int "activeUsers" it = 0) l -> total_users l = 0.
Proof.
  intros H. unfold total_users. apply Zsum_zero.
  induction H as [|it l Hit Hl IH]; by constructor.
Qed.

(** X13. When no user is counted at all (the report has no row, or every
    row counts zero users) the device breakdown is not an error: the
    divisor is [max(0, 1)], and the three percentages are 0.0. *)
Theorem device_category_no_users :
  forall devices_raw : list item,
    Forall (converts "activeUsers") devices_raw ->
    Forall (fun it => field_int "activeUsers" it = 0) devices_raw ->
    device_category devices_raw
    = Ok (DeviceBreakdown device_labels [f_zero; f_zero; f_zero] device_colors).
Proof.
  intros rows Hconv Hzero. unfold device_category.
  destruct (device_fold rows device_map0 0 Hconv) as (dm & Hfold & Hdm).
  rewrite Hfold. cbn [mbind outcome_bind].
  unfold device_percent, getitem. rewrite !Hdm.
  rewrite (total_users_zero _ Hzero), !(bucket_zero _ _ Hzero).
  unfold device_map0. simplify_map_eq. reflexivity.
Qed.

Lemma device_category_no_users_witness :
  device_category [ <["deviceCategory" := "desktop"]> (<["activeUsers" := "0"]> ∅);
                    <["deviceCategory" := "mobile"]> (<["activeUsers" := "0.9"]> ∅) ]
  = Ok (DeviceBreakdown device_labels [f_zero; f_zero; f_zero] device_colors).
Proof.
  apply device_category_no_users.
  - repeat constructor; eexists; vm_compute; reflexivity.
  - repeat constructor; vm_compute; reflexivity.
Defined.

(** ** Eight digits *)

Lemma four_digits_text_chars (a b c d : ascii) :
  is_digit a = true -> is_digit b = true -> is_digit c = true -> is_digit d = true ->
  four_digits_text (1000 * digit_val a + 100 * digit_val b + 10 * digit_val c + digit_val d)
  = String a (String b (String c (String d EmptyString))).
Proof.
  intros Ha Hb Hc Hd.
  pose proof (is_digit_range a Ha). pose proof (is_digit_range b Hb).
  pose proof (is_digit_range c Hc). pose proof (is_digit_range d Hd).
  unfold four_digits_text.
  set (k := 1000 * digit_val a + 100 * digit_val b + 10 * digit_val c + digit_val d).
  replace (k / 1000) with (digit_val a) by (subst k; Z.div_mod_to_equations; lia).
  replace (k / 100 mod 10) with (digit_val b) by (subst k; Z.div_mod_to_equations; lia).
  replace (k / 10 mod 10) with (digit_val c) by (subst k; Z.div_mod_to_equations; lia).
  replace (k mod 10) with (digit_val d) by (subst k; Z.div_mod_to_equations; lia).
  by rewrite !is_digit_char.
Qed.

Lemma md_digits (k : Z) : 0 <= k < 10000 -> md_digits_check k = true.
Proof.
  intros Hk.
  assert (H : forall_range 10000 0 md_digits_check = true) by (vm_compute; reflexivity).
  apply (forall_range_spec _ _ _ H). lia.
Qed.

(** Eight digits that the runtime's parser accepts name a date. *)
Lemma strptime_eight_digits (c1 c2 c3 c4 c5 c6 c7 c8 : ascii) (d : date) :
  is_digit c1 = true -> is_digit c2 = true -> is_digit c3 = true -> is_digit c4 = true ->
  is_digit c5 = true -> is_digit c6 = true -> is_digit c7 = true -> is_digit c8 = true ->
  strptime_Ymd (String c1 (String c2 (String c3 (String c4 (String c5 (String c6
                  (String c7 (String c8 EmptyString)))))))) = Ok d ->
  valid_date (Date (1000 * digit_val c1 + 100 * digit_val c2 + 10 * digit_val c3
                    + digit_val c4)
                   (10 * digit_val c5 + digit_val c6)
                   (10 * digit_val c7 + digit_val c8)) = true.
Proof.
  intros H1 H2 H3 H4 H5 H6 H7 H8.
  pose proof (is_digit_range c5 H5). pose proof (is_digit_range c6 H6).
  pose proof (is_digit_range c7 H7). pose proof (is_digit_range c8 H8).
  set (k := 1000 * digit_val c5 + 100 * digit_val c6 + 10 * digit_val c7 + digit_val c8).
  assert (Hm : k / 100 = 10 * digit_val c5 + digit_val c6)
    by (subst k; Z.div_mod_to_equations; lia).
  assert (Hd : k mod 100 = 10 * digit_val c7 + digit_val c8)
    by (subst k; Z.div_mod_to_equations; lia).
  pose proof (md_digits k ltac:(subst k; lia)) as Hchk.
  unfold md_digits_check in Hchk.
  pose proof (four_digits_text_chars c5 c6 c7 c8 H5 H6 H7 H8) as Hf. fold k in Hf.
  rewrite Hf in Hchk. clear Hf.
  unfold strptime_Ymd, match_Ymd, four_digits.
  rewrite H1, H2, H3, H4. cbn [andb mbind option_bind].
  destruct (match_md (String c5 (String c6 (String c7 (String c8 EmptyString)))))
    as [[[gm gd] r]|]; cbn [mbind option_bind]; [|discriminate].
  destruct (String.eqb r "") eqn:Hr; cbn [negb]; [|discriminate].
  apply String.eqb_eq in Hr. subst r.
  repeat (apply andb_true_iff in Hchk as [Hchk ?]).
  apply String.eqb_eq in Hchk. subst gm.
  match goal with H : String.eqb gd _ = true |- _ => apply String.eqb_eq in H; subst gd end.
  repeat match goal with H : (_ <=? _) = true |- _ => apply Z.leb_le in H end.
  rewrite int_of_group_four by assumption.
  rewrite !int_of_group_two_digits by lia.
  rewrite Hm, Hd in *. cbn [year month day].
  set (y := 1000 * digit_val c1 + 100 * digit_val c2 + 10 * digit_val c3 + digit_val c4).
  set (m := 10 * digit_val c5 + digit_val c6) in *.
  set (dd := 10 * digit_val c7 + digit_val c8) in *.
  unfold valid_date. cbn [year month day].
  destruct ((MINYEAR <=? y) && (y <=? MAXYEAR)); cbn [negb andb]; [|discriminate].
  destruct ((1 <=? dd) && (dd <=? days_in_month y m)) eqn:Hday; cbn [negb]; [|discriminate].
  intros _. apply andb_true_iff in Hday as [Hd1 Hd2]. rewrite Hd1, Hd2.
  replace (1 <=? m) with true by (symmetry; apply Z.leb_le; lia).
  replace (m <=? 12) with true by (symmetry; apply Z.leb_le; lia).
  reflexivity.
Qed.

(** X14. On a string of exactly eight digits the label is produced exactly
    when the digits name a date of the calendar; eight digits that name no
    date (a month 00 or 13, a day 00 or 32, the 30th of February, the 29th
    of February of a common year, the year 0000) come back unchanged. *)
Theorem eight_digits_label :
  forall s : string,
    String.length s = 8%nat ->
    all_digits s = true ->
    (exists d, parse_yyyymmdd s = Some d /\ valid_date d = true /\
               format_date_label s = label_of d) \/
    (parse_yyyymmdd s = None /\ format_date_label s = s).
Proof.
  intros s Hlen Hdigits.
  destruct s as [|c1 [|c2 [|c3 [|c4 [|c5 [|c6 [|c7 [|c8 [|c9 s]]]]]]]]]; try discriminate.
  cbn [all_digits] in Hdigits.
  repeat (apply andb_true_iff in Hdigits as [? Hdigits]).
  destruct (parse_yyyymmdd (String c1 (String c2 (String c3 (String c4 (String c5
              (String c6 (String c7 (String c8 EmptyString)))))))))
    as [d|] eqn:Hp.
  - left. exists d. split; [reflexivity|].
    pose proof (parse_yyyymmdd_strptime _ _ Hp) as Hs.
    assert (Hv : valid_date d = true).
    { unfold parse_yyyymmdd in Hp.
      destruct (_ && _) in Hp; [|discriminate]. cbv zeta in Hp.
      destruct (valid_date _) eqn:Hv in Hp; [|discriminate].
      inversion Hp; subst d. exact Hv. }
    split; [exact Hv|].
    unfold format_date_label. rewrite Hs. cbn [mbind outcome_bind].
    unfold strftime_b_d, label_of. rewrite format_02d_two_digits; [reflexivity|].
    unfold valid_date in Hv. repeat (apply andb_true_iff in Hv as [Hv ?]).
    repeat match goal with H : (_ <=? _) = true |- _ => apply Z.leb_le in H end.
    assert (days_in_month (year d) (month d) <= 31); [|lia].
    unfold days_in_month. destruct ((month d =? 2) && is_leap (year d)); [lia|].
    assert (Hc : month d = 1 \/ month d = 2 \/ month d = 3 \/ month d = 4 \/ month d = 5 \/
                 month d = 6 \/ month d = 7 \/ month d = 8 \/ month d = 9 \/ month d = 10 \/
                 month d = 11 \/ month d = 12) by lia.
    destruct Hc as [->|[->|[->|[->|[->|[->|[->|[->|[->|[->|[->| ->]]]]]]]]]]];
      vm_compute; discriminate.
  - right. split; [reflexivity|].
    unfold format_date_label.
    destruct (strptime_Ymd _) as [d|e] eqn:Hs; [|reflexivity].
    exfalso.
    pose proof (strptime_eight_digits c1 c2 c3 c4 c5 c6 c7 c8 d
                  ltac:(assumption) ltac:(assumption) ltac:(assumption) ltac:(assumption)
                  ltac:(assumption) ltac:(assumption) ltac:(assumption) ltac:(assumption)
                  Hs) as Hv.
    unfold parse_yyyymmdd in Hp.
    repeat match goal with H : is_digit _ = true |- _ => rewrite H in Hp; clear H end.
    cbn [andb] in Hp. cbv zeta in Hp. rewrite Hv in Hp. discriminate.
Qed.

Lemma eight_digits_label_witness :
  format_date_label "20240230" = "20240230" /\ format_date_label "20230229" = "20230229".
Proof.
  destruct (eight_digits_label "20240230" eq_refl eq_refl)
    as [(d & Hd & _)|[_ H1]]; [discriminate|].
  destruct (eight_digits_label "20230229" eq_refl eq_refl)
    as [(d & Hd & _)|[_ H2]]; [discriminate|].
  split; assumption.
Defined.

(** ** The order of the daily rows *)

Lemma sorted_unique {A} (key : A -> string) (l1 : list A) :
  forall l2,
    StronglySorted (key_le key) l1 -> StronglySorted (key_le key) l2 ->
    Permutation l1 l2 -> NoDup (key <$> l1) -> l1 = l2.
Proof.
  induction l1 as [|a l1 IH]; intros l2 Hs1 Hs2 Hp Hnd.
  - apply Permutation_nil in Hp. by subst.
  - destruct l2 as [|b l2]; [by apply Permutation_sym, Permutation_nil_cons in Hp|].
    apply StronglySorted_inv in Hs1 as [Hs1 Ha]. apply StronglySorted_inv in Hs2 as [Hs2 Hb].
    rewrite fmap_cons in Hnd. apply NoDup_cons in Hnd as [Hna Hnd].
    assert (Hab : a = b).
    { assert (Ha2 : a ∈ b :: l2) by (rewrite <- Hp; constructor).
      assert (Hb1 : b ∈ a :: l1) by (rewrite Hp; constructor).
      apply elem_of_cons in Ha2 as [Ha2|Ha2]; [exact Ha2|].
      apply elem_of_cons in Hb1 as [Hb1|Hb1]; [by symmetry|].
      rewrite Forall_forall in Ha, Hb.
      pose proof (Ha b Hb1) as H1. pose proof (Hb a Ha2) as H2.
      unfold key_le in H1, H2.
      pose proof (String.leb_antisym _ _ H1 H2) as Hk.
      exfalso. apply Hna. rewrite Hk. apply list_elem_of_fmap. by exists b. }
    subst b. f_equal. apply IH; try assumption.
    by apply Permutation_cons_inv in Hp.
Qed.

(** X15. When the daily rows carry distinct dates, the order in which the
    backend sends them does not matter: any rearrangement of the rows
    gives the same chronological series. *)
Theorem traffic_order_independent :
  forall l1 l2 : list item,
    Permutation l1 l2 ->
    NoDup (date_key <$> l1) ->
    sorted date_key l1 = sorted date_key l2 /\
    traffic_over_time l1 = traffic_over_time l2.
Proof.
  intros l1 l2 Hp Hnd.
  assert (Hs : sorted date_key l1 = sorted date_key l2).
  { apply (sorted_unique date_key); try apply sorted_sorted.
    - rewrite !sorted_perm. exact Hp.
    - assert (Hk : date_key <$> sorted date_key l1 ≡ₚ date_key <$> l1)
        by apply fmap_Permutation, sorted_perm.
      by rewrite Hk. }
  split; [exact Hs|]. unfold traffic_over_time. by rewrite Hs.
Qed.

Lemma traffic_order_independent_witness :
  traffic_over_time sample_traffic_rows = traffic_over_time (reverse sample_traffic_rows).
Proof.
  refine (proj2 (traffic_order_independent sample_traffic_rows
                   (reverse sample_traffic_rows) _ _)).
  - symmetry. apply reverse_Permutation.
  - apply (@bool_decide_unpack _ (NoDup_dec _)). vm_compute. exact I.
Defined.

(** ** What reaches the backend *)

Lemma verify_admin_name cfg username password admin :
  verify_admin cfg username password = inr admin -> admin = username.
Proof.
  unfold verify_admin.
  destruct (compare_digest username (ADMIN_USERNAME cfg)) as [bu|eu];
    cbn [mbind outcome_bind]; [|discriminate].
  destruct (compare_digest password (ADMIN_PASSWORD cfg)) as [bp|ep];
    cbn [mbind outcome_bind]; [|discriminate].
  destruct (bu && bp); [|discriminate]. intros H. by inversion H.
Qed.

(** X16. The backend is only ever reached for a verified administrator and
    a valid number of days: whenever the endpoint sends a request to the
    backend, the credentials of the HTTP request passed [verify_admin] and
    its [days] was absent (then 30) or an integer from 1 to 365, and the
    answer of the endpoint is the answer of the handler for that number. *)
Theorem backend_needs_admin_and_days :
  forall cfg env (req : http_request),
    snd (analytics_endpoint cfg env req) <> [] ->
    exists username password days,
      credentials req = Some (username, password) /\
      verify_admin cfg username password = inr username /\
      validate_days (days_param req) = Some days /\
      1 <= days <= 365 /\
      (days_param req = QAbsent -> days = 30) /\
      analytics_endpoint cfg env req = get_analytics cfg env days.
Proof.
  intros cfg env req Hlog. unfold analytics_endpoint in *.
  destruct (credentials req) as [[username password]|]; [|contradiction].
  destruct (verify_admin cfg username password) as [reply|admin] eqn:Hv; [contradiction|].
  destruct (validate_days (days_param req)) as [days|] eqn:Hd; [|contradiction].
  exists username, password, days.
  rewrite (verify_admin_name _ _ _ _ Hv) in Hv.
  split; [reflexivity|]. split; [exact Hv|]. split; [reflexivity|].
  split; [by eapply validate_days_accepted|]. split; [|reflexivity].
  intros Habs. rewrite Habs in Hd. by inversion Hd.
Qed.

Lemma backend_needs_admin_and_days_witness :
  exists username password days,
    credentials (HttpRequest (Some ("admin", "secret")) QAbsent) = Some (username, password) /\
    verify_admin sample_config username password = inr username /\
    days = 30.
Proof.
  destruct (backend_needs_admin_and_days sample_config quiet_environment
              (HttpRequest (Some ("admin", "secret")) QAbsent))
    as (u & p & days & Hc & Hv & _ & _ & Habs & _).
  - vm_compute. discriminate.
  - exists u, p, days. repeat split; [exact Hc|exact Hv|by apply Habs].
Defined.
